(** * L2: the streaming session engine, its store and its lexicon tool

    A shallow embedding of the Go packages [storage], [ui] and [tools] of
    the L2 conlang chat client, and the properties of the session engine
    that its specification states.

    Conventions of the embedding.
    - A Go [string] or [[]byte] is a [string] (a sequence of bytes);
      [len] is [String.length].
    - A Go [int] is a [Z] kept in the 64-bit signed range by [wrap_int].
    - A Go function returning [(v, error)] returns a pair [(v, option error)],
      with the zero value of [v] where Go returns it next to an error.
    - The file system, which the Go code reaches through package [os], is an
      explicit value of type [OS] threaded through every function.
    - Third-party libraries (encoding/json, the bubbles widgets, glamour, the
      eino backend) are interfaces: type classes whose methods are the calls
      the source makes. *)

From stdpp Require Import gmap strings list pretty.
From Stdlib Require Import ZArith Lia Ascii.

Set Default Proof Using "Type".
Set Warnings "-register-all".

(** ** Go base types *)

Definition LF : string := String "010"%char EmptyString.

Definition max_int : Z := 9223372036854775807.
Definition min_int : Z := -9223372036854775808.

(** Two's-complement wrap-around of a Go [int] (64 bits). *)
Definition wrap_int (z : Z) : Z := ((z - min_int) mod 2 ^ 64 + min_int)%Z.

Definition int_add (x y : Z) : Z := wrap_int (x + y).

(** [len(s)] of a Go string, as an [int]. *)
Definition len (s : string) : Z := Z.of_nat (String.length s).

(** [strings.HasPrefix(s, p)] *)
Fixpoint HasPrefix (s p : string) {struct p} : bool :=
  match p, s with
  | EmptyString, _ => true
  | String a p', String b s' => if Ascii.eqb a b then HasPrefix s' p' else false
  | String _ _, EmptyString => false
  end.

(** [strings.Contains(s, sub)] *)
Fixpoint Contains (s sub : string) : bool :=
  HasPrefix s sub ||
  match s with
  | EmptyString => false
  | String _ s' => Contains s' sub
  end.

(** Drop the first [n] bytes: [s[n:]] (everything when [n] exceeds [len s]). *)
Fixpoint string_drop (n : nat) (s : string) : string :=
  match n, s with
  | O, _ => s
  | S n', String _ s' => string_drop n' s'
  | S _, EmptyString => EmptyString
  end.

(** [strings.ReplaceAll(s, old, new)] for a non-empty [old]: the
    non-overlapping occurrences of [old] are replaced from left to right.
    [fuel] bounds the number of bytes still to scan. *)
Fixpoint ReplaceAll_go (fuel : nat) (s old new : string) : string :=
  match fuel with
  | O => s
  | S fuel' =>
      match s with
      | EmptyString => EmptyString
      | String a s' =>
          if HasPrefix s old
          then new +:+ ReplaceAll_go fuel' (string_drop (String.length old) s) old new
          else String a (ReplaceAll_go fuel' s' old new)
      end
  end.

Definition ReplaceAll (s old new : string) : string :=
  ReplaceAll_go (String.length s) s old new.

(** [l[len(l)-n:]]: the last [n] elements of a slice. *)
Definition last_n {A} (n : nat) (l : list A) : list A :=
  drop (length l - n) l.

(** [l[:len(l)-1]]: all but the last element. *)
Definition all_but_last {A} (l : list A) : list A :=
  take (length l - 1) l.

(** Concatenation of a sequence of strings. *)
Fixpoint concat_strings (l : list string) : string :=
  match l with
  | [] => EmptyString
  | s :: l' => s +:+ concat_strings l'
  end.

(** [strings.Split(s, sep)] for a separator of one byte: the pieces of [s]
    between the occurrences of [sep], one more than there are occurrences. *)
Fixpoint split_byte (sep : ascii) (s : string) : list string :=
  match s with
  | EmptyString => [EmptyString]
  | String c s' =>
      if Ascii.eqb c sep then EmptyString :: split_byte sep s'
      else
        match split_byte sep s' with
        | piece :: pieces => String c piece :: pieces
        | [] => [String c EmptyString]
        end
  end.

(** [strings.HasSuffix(s, suffix)] *)
Definition HasSuffix (s suffix : string) : bool :=
  (String.length suffix <=? String.length s)%nat
  && String.eqb (string_drop (String.length s - String.length suffix) s) suffix.

(** ** Errors *)

Inductive error :=
  | ErrNoHome                       (* os.UserHomeDir: $HOME is not defined *)
  | ErrNotExist                     (* ENOENT *)
  | ErrNotDir                       (* ENOTDIR *)
  | ErrIsDir                        (* EISDIR *)
  | ErrFileDoesNotExist (name : string)   (* fmt.Errorf in storage.ReadFile *)
  | ErrJSON (detail : string)       (* an error of encoding/json *)
  | ErrBackend (detail : string)    (* an error of the model backend *)
  | EOF.                            (* io.EOF *)

(** [err.Error()] *)
Definition Error (e : error) : string :=
  match e with
  | ErrNoHome => "$HOME is not defined"
  | ErrNotExist => "no such file or directory"
  | ErrNotDir => "not a directory"
  | ErrIsDir => "is a directory"
  | ErrFileDoesNotExist name => "file does not exist: " +:+ name
  | ErrJSON d => d
  | ErrBackend d => d
  | EOF => "EOF"
  end.

(** ** Package os: the file system

    A path is a sequence of components, absolute or relative to the working
    directory.  The file system is a set of directories and a finite map
    from the paths of regular files to their contents; the root always
    exists.  Permissions and device errors are not modelled: an operation
    fails only for the structural reasons below. *)

Module os.

Record Path := MkPath { absolute : bool; comps : list string }.

Record OS := MkOS {
  dirs : gset (list string);
  files : gmap (list string) string;
  cwd : list string;
  home : option (list string)       (* $HOME, when it is set *)
}.

Definition resolve (o : OS) (p : Path) : list string :=
  if absolute p then comps p else cwd o ++ comps p.

Definition isDir (o : OS) (p : list string) : bool :=
  bool_decide (p = [] ∨ p ∈ dirs o).

Definition isFile (o : OS) (p : list string) : bool :=
  bool_decide (is_Some (files o !! p)).

(** [filepath.Dir] *)
Definition Dir (p : Path) : Path :=
  MkPath (absolute p) (removelast (comps p)).

(** [filepath.Join(p, name)] for a relative [name] without dot-dot. *)
Definition Join (p : Path) (name : list string) : Path :=
  MkPath (absolute p) (comps p ++ name).

(** [os.UserHomeDir] *)
Definition UserHomeDir (o : OS) : Path * option error :=
  match home o with
  | Some h => (MkPath true h, None)
  | None => (MkPath false [], Some ErrNoHome)
  end.

(** [os.Stat], of which the source only looks at the error. *)
Definition Stat (o : OS) (p : Path) : option error :=
  let q := resolve o p in
  if isDir o q || isFile o q then None else Some ErrNotExist.

Definition add_dir (o : OS) (p : list string) : OS :=
  MkOS ({[ p ]} ∪ dirs o) (files o) (cwd o) (home o).

(** Create the directories [base/c1], [base/c1/c2], ... in turn; stop at a
    component that is a regular file. *)
Fixpoint mkdirs (o : OS) (base rest : list string) : OS * option error :=
  match rest with
  | [] => (o, None)
  | c :: rest' =>
      let p := base ++ [c] in
      if isFile o p then (o, Some ErrNotDir)
      else mkdirs (if isDir o p then o else add_dir o p) p rest'
  end.

(** [os.MkdirAll] *)
Definition MkdirAll (o : OS) (p : Path) : OS * option error :=
  mkdirs o [] (resolve o p).

(** [os.WriteFile]: create or truncate the file and write [data]; the
    parent directory must exist. *)
Definition WriteFile (o : OS) (p : Path) (data : string) : OS * option error :=
  let q := resolve o p in
  if isDir o q then (o, Some ErrIsDir)
  else if isFile o (removelast q) then (o, Some ErrNotDir)
  else if isDir o (removelast q)
  then (MkOS (dirs o) (<[ q := data ]> (files o)) (cwd o) (home o), None)
  else (o, Some ErrNotExist).

(** [os.ReadFile] *)
Definition ReadFile (o : OS) (p : Path) : string * option error :=
  let q := resolve o p in
  match files o !! q with
  | Some data => (data, None)
  | None => (EmptyString, Some (if isDir o q then ErrIsDir else ErrNotExist))
  end.

(** One piece of a name joined to the components [acc] of an absolute
    path, as [filepath.Clean] treats it: an empty piece and "." change
    nothing, ".." removes the last component (none at the root). *)
Definition join_piece (acc : list string) (piece : string) : list string :=
  if String.eqb piece EmptyString || String.eqb piece "." then acc
  else if String.eqb piece ".." then removelast acc
  else acc ++ [piece].

(** [filepath.Join(p, name)] for an absolute [p] and a name given as text:
    the name is cut at the slashes and its pieces are joined in turn. *)
Definition JoinText (p : Path) (name : string) : Path :=
  MkPath (absolute p) (fold_left join_piece (split_byte "/" name) (comps p)).

End os.

(** ** Messages (eino's [schema.Message], the fields the program uses) *)

Record ToolCall := MkToolCall {
  Name : string;            (* toolCall.Function.Name *)
  Arguments : string        (* toolCall.Function.Arguments *)
}.

Record Message := MkMessage {
  Role : string;
  Content : string;
  ToolCalls : list ToolCall
}.

Definition UserMessage (content : string) : Message :=
  MkMessage "user" content [].

Definition SystemMessage (content : string) : Message :=
  MkMessage "system" content [].

Definition AssistantMessage (content : string) (toolCalls : list ToolCall) : Message :=
  MkMessage "assistant" content toolCalls.

(** ** Package storage *)

Module storage.
Import os.

Record Stats := MkStats { TotalTokens : Z }.

(** The calls of encoding/json the program makes, one method per call and
    type.  An [Unmarshal] returns the value left in the destination
    variable together with the error. *)
Class JSON := {
  Marshal_history : list Message → string * option error;
  Unmarshal_history : string → list Message * option error;
  Marshal_stats : Stats → string * option error;
  Unmarshal_stats : string → Stats * option error
}.

Inductive FileKind := SystemFile | ConversationFile | StatsFile | DataFile.

Definition rootPath : string := "l2".

Definition pathMap (file : FileKind) : Path :=
  match file with
  | SystemFile => MkPath false ["system.md"]
  | ConversationFile => MkPath false ["conversations"; "conversation.json"]
  | StatsFile => MkPath false ["stats.json"]
  | DataFile => MkPath false ["data"]
  end.

(** The text of [pathMap[file]], as [ReadFile] prints it in its error. *)
Definition pathMap_text (file : FileKind) : string :=
  match file with
  | SystemFile => "system.md"
  | ConversationFile => "conversations/conversation.json"
  | StatsFile => "stats.json"
  | DataFile => "data"
  end.

Definition GetPath (o : OS) (file : FileKind) : Path * option error :=
  match UserHomeDir o with
  | (_, Some err) => (MkPath false [], Some err)
  | (home, None) =>
      (MkPath (absolute home) (comps home ++ [rootPath] ++ comps (pathMap file)), None)
  end.

Definition CheckFile (o : OS) (file : FileKind) : bool * option error :=
  match GetPath o file with
  | (_, Some err) => (false, Some err)
  | (path, None) =>
      match Stat o path with
      | None => (true, None)
      | Some _ => (false, None)
      end
  end.

Definition WriteDataFile (o : OS) (file : list string) (data : string)
  : OS * option error :=
  match GetPath o DataFile with
  | (_, Some err) => (o, Some err)
  | (Path, None) =>
      let o := fst (MkdirAll o (Dir Path)) in
      let Path := Join Path file in
      os.WriteFile o Path data
  end.

Definition ReadDataFile (o : OS) (file : list string) : string * option error :=
  match GetPath o DataFile with
  | (_, Some err) => (EmptyString, Some err)
  | (Path, None) =>
      let Path := Join Path file in
      os.ReadFile o Path
  end.

Definition WriteFile (o : OS) (file : FileKind) (data : string)
  : OS * option error :=
  match GetPath o file with
  | (_, Some err) => (o, Some err)
  | (path, None) => os.WriteFile o path data
  end.

Definition ReadFile (o : OS) (file : FileKind) : string * option error :=
  match CheckFile o file with
  | (_, Some err) => (EmptyString, Some err)
  | (false, None) => (EmptyString, Some (ErrFileDoesNotExist (pathMap_text file)))
  | (true, None) =>
      match GetPath o file with
      | (_, Some err) => (EmptyString, Some err)
      | (path, None) => os.ReadFile o path
      end
  end.

(** [WriteDataFile] and [ReadDataFile] on the name as a caller gives it, a
    text that may hold slashes and dots. *)
Definition WriteDataFile_text (o : OS) (file : string) (data : string)
  : OS * option error :=
  match GetPath o DataFile with
  | (_, Some err) => (o, Some err)
  | (Path, None) =>
      let o := fst (MkdirAll o (Dir Path)) in
      let Path := JoinText Path file in
      os.WriteFile o Path data
  end.

Definition ReadDataFile_text (o : OS) (file : string) : string * option error :=
  match GetPath o DataFile with
  | (_, Some err) => (EmptyString, Some err)
  | (Path, None) =>
      let Path := JoinText Path file in
      os.ReadFile o Path
  end.

Section WithJSON.
Context `{!JSON}.

Definition ReadConversation (o : OS) : list Message * option error :=
  match ReadFile o ConversationFile with
  | (_, Some err) => ([], Some err)
  | (data, None) =>
      match Unmarshal_history data with
      | (_, Some err) => ([], Some err)
      | (history, None) => (history, None)
      end
  end.

Definition WriteConversation (o : OS) (history : list Message)
  : OS * option error :=
  match CheckFile o ConversationFile with
  | (_, Some err) => (o, Some err)
  | (exists_, None) =>
      let o := if exists_ then o
               else fst (MkdirAll o (Dir (pathMap ConversationFile))) in
      match Marshal_history history with
      | (_, Some err) => (o, Some err)
      | (data, None) => WriteFile o ConversationFile data
      end
  end.

Definition ReadStats (o : OS) : Stats * option error :=
  match ReadFile o StatsFile with
  | (_, Some err) => (MkStats 0, Some err)
  | (data, None) =>
      match Unmarshal_stats data with
      | (_, Some err) => (MkStats 0, Some err)
      | (stats, None) => (stats, None)
      end
  end.

Definition WriteStats (o : OS) (stats : Stats) : OS * option error :=
  match CheckFile o StatsFile with
  | (_, Some err) => (o, Some err)
  | (exists_, None) =>
      let o := if exists_ then o
               else fst (MkdirAll o (Dir (pathMap StatsFile))) in
      match Marshal_stats stats with
      | (_, Some err) => (o, Some err)
      | (data, None) => WriteFile o StatsFile data
      end
  end.

End WithJSON.

(** [CopySystem] creates the directory of the system prompt from the full
    path and copies the bundled template [system.md] of the working
    directory into it. *)
Definition CopySystem (o : OS) : OS * option error :=
  match GetPath o SystemFile with
  | (_, Some err) => (o, Some err)
  | (systemPath, None) =>
      let o := fst (MkdirAll o (Dir systemPath)) in
      (* os.OpenFile(systemPath, O_CREATE|O_WRONLY): creates an empty file
         or opens the existing one without truncating it *)
      let '(o, err) :=
        match files o !! resolve o systemPath with
        | Some _ => (o, None)
        | None => os.WriteFile o systemPath EmptyString
        end in
      match err with
      | Some err => (o, Some err)
      | None =>
          match os.ReadFile o (MkPath false ["system.md"]) with
          | (_, Some err) => (o, Some err)
          | (template, None) =>
              (* io.Copy writes the template from offset 0 over the
                 existing bytes *)
              let old := default EmptyString (files o !! resolve o systemPath) in
              let new := template +:+ string_drop (String.length template) old in
              (fst (os.WriteFile o systemPath new), None)
          end
      end
  end.

Definition ReadSystem (o : OS) : OS * (string * option error) :=
  match CheckFile o SystemFile with
  | (_, Some err) => (o, (EmptyString, Some err))
  | (exists_, None) =>
      let '(o, err) := if exists_ then (o, None) else CopySystem o in
      match err with
      | Some err => (o, (EmptyString, Some err))
      | None =>
          match ReadFile o SystemFile with
          | (_, Some err) => (o, (EmptyString, Some err))
          | (data, None) => (o, (data, None))
          end
      end
  end.

End storage.

(** ** Package tools: the lexicon *)

Module tools.
Import os.

Record LexiconEntry := MkLexiconEntry {
  Word : string;
  Definition_ : string;
  PartOfSpeech : string;
  Etymology : string
}.

Record LexiconResult := MkLexiconResult {
  Success : bool;
  Message : string;
  Entries : list LexiconEntry
}.

(** encoding/json at the type [[]LexiconEntry].  [Unmarshal_lexicon data]
    is the value of the destination slice (empty before the call) after
    the call, with the error. *)
Class JSON := {
  MarshalIndent_lexicon : list LexiconEntry → string * option error;
  Unmarshal_lexicon : string → list LexiconEntry * option error
}.

Definition lexiconPath : list string := ["lexicon.json"].

(** [for _, existing := range entries { if existing.Word == word ... }] *)
Fixpoint has_word (entries : list LexiconEntry) (word : string) : bool :=
  match entries with
  | [] => false
  | existing :: entries' =>
      if String.eqb (Word existing) word then true else has_word entries' word
  end.

Section WithJSON.
Context `{!JSON}.



Definition GetLexicon (o : OS) : LexiconResult * option error :=
  match storage.ReadDataFile o lexiconPath with
  | (_, Some err) =>
      (MkLexiconResult false ("Failed to read lexicon: " +:+ Error err) [], None)
  | (data, None) =>
      match Unmarshal_lexicon data with
      | (_, Some err) =>
          (MkLexiconResult false ("Failed to parse lexicon: " +:+ Error err) [],
           None)
      | (entries, None) =>
          (MkLexiconResult true
             ("Retrieved " +:+ pretty (length entries) +:+ " lexicon entries")
             entries, None)
      end
  end.

End WithJSON.

(** *** The file tools *)

Record File := MkFile {
  File_Path : string;
  File_Content : string
}.

Record Result := MkResult {
  Result_Success : bool;
  Result_Message : string;
  Result_Content : string
}.

Definition AddFile (o : OS) (file : File) : OS * (Result * option error) :=
  if String.eqb (File_Path file) EmptyString then
    (o, (MkResult false "File path is required" EmptyString, None))
  else if String.eqb (File_Content file) EmptyString then
    (o, (MkResult false "File content is required for write operations" EmptyString,
         None))
  else
    match storage.WriteDataFile_text o (File_Path file) (File_Content file) with
    | (o', Some err) =>
        (o', (MkResult false ("Failed to write file: " +:+ Error err) EmptyString, None))
    | (o', None) => (o', (MkResult true "File written successfully" EmptyString, None))
    end.

Definition ReadFile (o : OS) (file : File) : Result * option error :=
  if String.eqb (File_Path file) EmptyString then
    (MkResult false "File path is required" EmptyString, None)
  else
    match storage.ReadDataFile_text o (File_Path file) with
    | (_, Some err) =>
        (MkResult false ("Failed to read file: " +:+ Error err) EmptyString, None)
    | (data, None) => (MkResult true "File read successfully" data, None)
    end.

(** *** Grammar validation *)

Record GrammarValidation := MkGrammarValidation {
  Text : string;
  GrammarFile : string
}.

Record GrammarResult := MkGrammarResult {
  GrammarResult_Success : bool;
  GrammarResult_Message : string;
  Valid : bool;
  Errors : list string;
  Suggestions : list string
}.

Definition ValidateGrammar (o : OS) (req : GrammarValidation)
  : GrammarResult * option error :=
  if String.eqb (Text req) EmptyString then
    (MkGrammarResult false "Text is required for grammar validation" false [] [], None)
  else
    let loaded :=
      if negb (String.eqb (GrammarFile req) EmptyString) then
        snd (storage.ReadDataFile_text o (GrammarFile req))
      else None in
    match loaded with
    | Some err =>
        (MkGrammarResult false ("Failed to load grammar rules: " +:+ Error err)
           false [] [], None)
    | None =>
        let errors :=
          if (length (split_byte " " (Text req)) <? 2)%nat then
            ["Text appears to be too short for meaningful grammar validation"]
          else [] in
        let suggestions :=
          if negb (HasSuffix (Text req) ".") && negb (HasSuffix (Text req) "!")
             && negb (HasSuffix (Text req) "?")
          then ["Consider adding proper sentence termination"]
          else [] in
        let valid := Nat.eqb (length errors) 0 in
        (MkGrammarResult true "Grammar validation completed" valid errors suggestions,
         None)
    end.

(** *** Phonology helpers

    [for _, char := range text] visits the code points of the text.  A byte
    below 128 is always a code point of its own and a code point of 128 or
    more is never in ['a', 'z'], so the code points that pass the test are
    the bytes that pass it, in order, and [string(char)] is that one
    byte. *)
Definition is_lower (c : ascii) : bool :=
  (97 <=? nat_of_ascii c)%nat && (nat_of_ascii c <=? 122)%nat.

Fixpoint extractPhonemes (text : string) : list string :=
  match text with
  | EmptyString => []
  | String char text' =>
      if is_lower char then String char EmptyString :: extractPhonemes text'
      else extractPhonemes text'
  end.

Fixpoint extractAllophones (text : string) : list string :=
  match text with
  | EmptyString => []
  | String char text' =>
      if is_lower char
      then ("[" +:+ String char EmptyString +:+ "]") :: extractAllophones text'
      else extractAllophones text'
  end.

End tools.

(** ** Outcomes of code that can stop the process

    [Panic] is a Go run-time panic (nil dereference, index or slice out of
    range); [Fatal] is [log.Fatal]. *)

Inductive exec (A : Type) : Type :=
  | Ret (a : A)
  | Panic (why : string)
  | Fatal (err : error).
Arguments Ret {A} a.
Arguments Panic {A} why.
Arguments Fatal {A} err.

#[global] Instance exec_ret : MRet exec := λ A a, Ret a.
#[global] Instance exec_bind : MBind exec := λ A B f x,
  match x with
  | Ret a => f a
  | Panic why => Panic why
  | Fatal err => Fatal err
  end.

(** ** Package ui: the session *)

Module ui.
Import os storage.
Local Open Scope Z_scope.

(** *** Time *)

(** A [time.Time] is a number of nanoseconds since the zero time
    [time.Time{}]; a [time.Duration] is a number of nanoseconds. *)
Definition Time := Z.
Definition Duration := Z.
Definition Millisecond : Duration := 1000000.
Definition zero_Time : Time := 0.
Definition maxDuration : Duration := max_int.
Definition minDuration : Duration := min_int.

(** [time.Since(t)] when the clock reads [now]: [now.Sub(t)], which
    saturates at the ends of the range of [Duration]. *)
Definition Since (now t : Time) : Duration :=
  Z.max minDuration (Z.min maxDuration (now - t)).

(** *** Messages and commands of the bubbletea runtime *)

Inductive KeyType := KeyEsc | KeyEnter | KeyCtrlC | KeyOther (runes : string).

Inductive Msg :=
  | WindowSizeMsg (Width Height : Z)
  | tickMsg
  | exitMsg
  | streamStartMsg
  | KeyMsg (type : KeyType)
  | otherMsg (tag : string).          (* any message the model has no case for *)

(** *** The widget and rendering libraries *)

Class Toolkit := {
  (* bubbles/textarea *)
  textarea : Type;
  textarea_New : textarea;            (* textarea.New(), set up as in NewModel *)
  ta_Value : textarea → string;
  ta_SetValue : textarea → string → textarea;
  ta_Focused : textarea → bool;
  ta_Blur : textarea → textarea;
  widget_cmd : Type;                  (* a tea.Cmd made by a widget *)
  ta_Focus : textarea → textarea * widget_cmd;
  ta_Update : textarea → Msg → textarea * widget_cmd;
  (* bubbles/viewport *)
  viewport : Type;
  viewport_zero : viewport;           (* viewport.Model{} *)
  viewport_New : Z → Z → viewport;    (* viewport.New(w, h) with the style set *)
  vp_Update : viewport → Msg → viewport * widget_cmd;
  vp_SetContent : viewport → string → viewport;
  vp_GotoBottom : viewport → viewport;
  vp_View : viewport → string;
  vp_Height : viewport → Z;
  vp_Width : viewport → Z;
  (* glamour *)
  TermRenderer : Type;
  NewTermRenderer : Z → TermRenderer * option error;   (* by word-wrap width *)
  glam_Render : TermRenderer → string → string * option error;
  (* go-figure: len(ascii), the number of rows of the banner *)
  ascii_rows : Z
}.

(** *** The backend: [compose.Runnable[[]*schema.Message, []*schema.Message]] *)

(** What a stream yields: [Recv] returns the frames in turn, then the
    terminal error ([EOF] at the end of the stream). *)
Record StreamReader := MkStreamReader {
  frames : list (list Message);
  terminal : error
}.

Record Runnable := MkRunnable {
  Invoke : list Message → list Message * option error;
  Stream : list Message → StreamReader * option error
}.

(** *** Channels: [chan string] with a buffer *)

Record chan := MkChan { buf : list string; closed : bool }.

Definition chan_capacity : nat := 100%nat.

(** [make(chan string, 100)] *)
Definition make_chan : chan := MkChan [] false.

Section WithLibraries.
Context `{!Toolkit, !JSON}.

Inductive Cmd :=
  | nilCmd
  | tick                            (* tea.Tick(50ms) delivering tickMsg *)
  | tickNil                         (* tea.Tick(50ms) delivering nil *)
  | startStreamingCmd (userMessage : string)
  | exitSequence                    (* tea.Sequence(tea.ExitAltScreen, tea.Quit) *)
  | ExitCmd                         (* tea.Sequence(m.Exit()) *)
  | widgetCmd (c : widget_cmd)
  | Batch (cmds : list Cmd).

Record Model := MkModel {
  ta : textarea;
  hold : viewport;
  height : Z;
  width : Z;
  ready : bool;
  llm : option Runnable;
  history : list Message;
  streaming : bool;
  currentResponse : string;         (* strings.Builder *)
  tokenChan : chan;
  glam : option TermRenderer;
  stats : Stats;
  quit : bool;
  thinking : bool;
  maxHistoryDisplay : Z;
  maxResponseLength : Z;
  renderBuffer : Z;
  lastRenderTime : Time;
  renderThrottle : Duration
}.

(** The process state the session code acts on: the model [m] and the
    file system. *)
Record World := MkWorld { model : Model; fs : OS }.

(** Field updates, one setter per field the source assigns. *)
Definition set_ta (v : textarea) (m : Model) : Model :=
  MkModel v (hold m) (height m) (width m) (ready m) (llm m) (history m)
    (streaming m) (currentResponse m) (tokenChan m) (glam m) (stats m) (quit m)
    (thinking m) (maxHistoryDisplay m) (maxResponseLength m) (renderBuffer m)
    (lastRenderTime m) (renderThrottle m).
Definition set_hold (v : viewport) (m : Model) : Model :=
  MkModel (ta m) v (height m) (width m) (ready m) (llm m) (history m)
    (streaming m) (currentResponse m) (tokenChan m) (glam m) (stats m) (quit m)
    (thinking m) (maxHistoryDisplay m) (maxResponseLength m) (renderBuffer m)
    (lastRenderTime m) (renderThrottle m).
Definition set_size (w h : Z) (m : Model) : Model :=
  MkModel (ta m) (hold m) h w (ready m) (llm m) (history m)
    (streaming m) (currentResponse m) (tokenChan m) (glam m) (stats m) (quit m)
    (thinking m) (maxHistoryDisplay m) (maxResponseLength m) (renderBuffer m)
    (lastRenderTime m) (renderThrottle m).
Definition set_ready (v : bool) (m : Model) : Model :=
  MkModel (ta m) (hold m) (height m) (width m) v (llm m) (history m)
    (streaming m) (currentResponse m) (tokenChan m) (glam m) (stats m) (quit m)
    (thinking m) (maxHistoryDisplay m) (maxResponseLength m) (renderBuffer m)
    (lastRenderTime m) (renderThrottle m).
Definition set_llm (v : option Runnable) (m : Model) : Model :=
  MkModel (ta m) (hold m) (height m) (width m) (ready m) v (history m)
    (streaming m) (currentResponse m) (tokenChan m) (glam m) (stats m) (quit m)
    (thinking m) (maxHistoryDisplay m) (maxResponseLength m) (renderBuffer m)
    (lastRenderTime m) (renderThrottle m).
Definition set_history (v : list Message) (m : Model) : Model :=
  MkModel (ta m) (hold m) (height m) (width m) (ready m) (llm m) v
    (streaming m) (currentResponse m) (tokenChan m) (glam m) (stats m) (quit m)
    (thinking m) (maxHistoryDisplay m) (maxResponseLength m) (renderBuffer m)
    (lastRenderTime m) (renderThrottle m).
Definition set_streaming (v : bool) (m : Model) : Model :=
  MkModel (ta m) (hold m) (height m) (width m) (ready m) (llm m) (history m)
    v (currentResponse m) (tokenChan m) (glam m) (stats m) (quit m)
    (thinking m) (maxHistoryDisplay m) (maxResponseLength m) (renderBuffer m)
    (lastRenderTime m) (renderThrottle m).
Definition set_currentResponse (v : string) (m : Model) : Model :=
  MkModel (ta m) (hold m) (height m) (width m) (ready m) (llm m) (history m)
    (streaming m) v (tokenChan m) (glam m) (stats m) (quit m)
    (thinking m) (maxHistoryDisplay m) (maxResponseLength m) (renderBuffer m)
    (lastRenderTime m) (renderThrottle m).
Definition set_tokenChan (v : chan) (m : Model) : Model :=
  MkModel (ta m) (hold m) (height m) (width m) (ready m) (llm m) (history m)
    (streaming m) (currentResponse m) v (glam m) (stats m) (quit m)
    (thinking m) (maxHistoryDisplay m) (maxResponseLength m) (renderBuffer m)
    (lastRenderTime m) (renderThrottle m).
Definition set_glam (v : option TermRenderer) (m : Model) : Model :=
  MkModel (ta m) (hold m) (height m) (width m) (ready m) (llm m) (history m)
    (streaming m) (currentResponse m) (tokenChan m) v (stats m) (quit m)
    (thinking m) (maxHistoryDisplay m) (maxResponseLength m) (renderBuffer m)
    (lastRenderTime m) (renderThrottle m).
Definition set_stats (v : Stats) (m : Model) : Model :=
  MkModel (ta m) (hold m) (height m) (width m) (ready m) (llm m) (history m)
    (streaming m) (currentResponse m) (tokenChan m) (glam m) v (quit m)
    (thinking m) (maxHistoryDisplay m) (maxResponseLength m) (renderBuffer m)
    (lastRenderTime m) (renderThrottle m).
Definition set_quit (v : bool) (m : Model) : Model :=
  MkModel (ta m) (hold m) (height m) (width m) (ready m) (llm m) (history m)
    (streaming m) (currentResponse m) (tokenChan m) (glam m) (stats m) v
    (thinking m) (maxHistoryDisplay m) (maxResponseLength m) (renderBuffer m)
    (lastRenderTime m) (renderThrottle m).
Definition set_thinking (v : bool) (m : Model) : Model :=
  MkModel (ta m) (hold m) (height m) (width m) (ready m) (llm m) (history m)
    (streaming m) (currentResponse m) (tokenChan m) (glam m) (stats m) (quit m)
    v (maxHistoryDisplay m) (maxResponseLength m) (renderBuffer m)
    (lastRenderTime m) (renderThrottle m).
Definition set_maxHistoryDisplay (v : Z) (m : Model) : Model :=
  MkModel (ta m) (hold m) (height m) (width m) (ready m) (llm m) (history m)
    (streaming m) (currentResponse m) (tokenChan m) (glam m) (stats m) (quit m)
    (thinking m) v (maxResponseLength m) (renderBuffer m)
    (lastRenderTime m) (renderThrottle m).
Definition set_maxResponseLength (v : Z) (m : Model) : Model :=
  MkModel (ta m) (hold m) (height m) (width m) (ready m) (llm m) (history m)
    (streaming m) (currentResponse m) (tokenChan m) (glam m) (stats m) (quit m)
    (thinking m) (maxHistoryDisplay m) v (renderBuffer m)
    (lastRenderTime m) (renderThrottle m).
Definition set_renderBuffer (v : Z) (m : Model) : Model :=
  MkModel (ta m) (hold m) (height m) (width m) (ready m) (llm m) (history m)
    (streaming m) (currentResponse m) (tokenChan m) (glam m) (stats m) (quit m)
    (thinking m) (maxHistoryDisplay m) (maxResponseLength m) v
    (lastRenderTime m) (renderThrottle m).
Definition set_lastRenderTime (v : Time) (m : Model) : Model :=
  MkModel (ta m) (hold m) (height m) (width m) (ready m) (llm m) (history m)
    (streaming m) (currentResponse m) (tokenChan m) (glam m) (stats m) (quit m)
    (thinking m) (maxHistoryDisplay m) (maxResponseLength m) (renderBuffer m)
    v (renderThrottle m).
Definition set_renderThrottle (v : Duration) (m : Model) : Model :=
  MkModel (ta m) (hold m) (height m) (width m) (ready m) (llm m) (history m)
    (streaming m) (currentResponse m) (tokenChan m) (glam m) (stats m) (quit m)
    (thinking m) (maxHistoryDisplay m) (maxResponseLength m) (renderBuffer m)
    (lastRenderTime m) v.

(** *** Rendering *)

Definition AddToHistory (m : Model) (msg : Message) : Model :=
  set_history (history m ++ [msg]) m.

(** The text one history turn contributes to the viewport. *)
Definition show_turn (msg : Message) : string :=
  let role := Role msg in
  if String.eqb role "user" then "👤 User: " +:+ Content msg +:+ LF +:+ LF
  else if String.eqb role "assistant" then "🤖 Assistant: " +:+ Content msg +:+ LF +:+ LF
  else EmptyString.

(** The text built in [logs] by [updateViewportContentInternal]. *)
Definition viewport_logs (m : Model) : exec string :=
  '(historyToShow, logs) ←
    (if Z.of_nat (length (history m)) >? maxHistoryDisplay m then
       if maxHistoryDisplay m <? 0 then Panic "slice bounds out of range"
       else Ret (last_n (Z.to_nat (maxHistoryDisplay m)) (history m),
                 "... (showing last " +:+ pretty (maxHistoryDisplay m)
                   +:+ " messages) ..." +:+ LF +:+ LF)
     else Ret (history m, EmptyString));
  let logs := logs +:+ concat_strings (map show_turn historyToShow) in
  Ret (if streaming m then
         logs +:+ "=== Streaming Response ===" +:+ LF +:+ LF
           +:+ currentResponse m
           +:+ (if len (currentResponse m) >? 0 then "▌" else EmptyString)
       else logs).

(** [updateViewportContentInternal]: the viewport update without
    throttling. *)
Definition updateViewportContentInternal (m : Model) : exec Model :=
  logsStr ← viewport_logs m;
  match glam m with
  | None => Panic "nil pointer dereference"
  | Some g =>
      let hold1 :=
        match glam_Render g logsStr with
        | (_, Some _) => vp_SetContent (hold m) logsStr
        | (rendered, None) => vp_SetContent (hold m) rendered
        end in
      let hold2 :=
        if ready m && (vp_Height hold1 >? 1) && (len (vp_View hold1) >? 0) then
          if (vp_Height hold1 >? 0) && (vp_Width hold1 >? 0)
          then vp_GotoBottom hold1 else hold1
        else hold1 in
      Ret (set_hold hold2 m)
  end.

(** [updateViewportContent]: the throttled update, when the clock reads
    [now]. *)
Definition updateViewportContent (now : Time) (m : Model) : exec Model :=
  if Since now (lastRenderTime m) <? renderThrottle m then Ret m
  else updateViewportContentInternal (set_lastRenderTime now m).

(** *** Throttle parameters *)

Definition adjustOptimizationParams (m : Model) : Model :=
  let responseLength := len (currentResponse m) in
  let m :=
    if responseLength >? 10000 then set_renderThrottle (200 * Millisecond) m
    else if responseLength >? 5000 then set_renderThrottle (150 * Millisecond) m
    else set_renderThrottle (100 * Millisecond) m in
  set_maxResponseLength 0 m.

(** [cleanupLongResponse] has an empty body. *)
Definition cleanupLongResponse (m : Model) : Model := m.

Definition resetOptimizationParams (m : Model) : Model :=
  set_renderThrottle (100 * Millisecond)
    (set_renderBuffer 5 (set_maxResponseLength 0 (set_maxHistoryDisplay 10 m))).

(** *** Statistics *)

Definition UpdateStats (w : World) (newStats : Stats) : World :=
  let m := set_stats newStats (model w) in
  MkWorld m (fst (WriteStats (fs w) (stats m))).

Definition GetStats (m : Model) : Stats := stats m.

(** *** The context condenser *)

(** The summarization instruction, line by line. *)
Definition summaryPrompt_lines : list string :=
  [
    "Please provide a detailed summary of the conlang conversation so far, focusing on:";
    EmptyString;
    "**CRITICAL INFORMATION TO INCLUDE:**";
    "- **Vocabulary and word definitions** that were discussed or created";
    "- **Phonology rules and sound systems** that were established";
    "- **Grammar rules and structures** that were defined";
    "- **Writing systems or orthography** that were developed";
    "- **Example sentences or translations** that were provided";
    "- **Specific conlang features** (cases, tenses, aspects, etc.)";
    "- **Cultural or naming conventions** that were established";
    "- **Any specific words, roots, or morphemes** that were created";
    "- **Tool call results and data operations** that were performed:";
    "  - Lexicon entries that were added via add_lexicon_entry tool";
    "  - Lexicon data that was retrieved via get_lexicon tool";
    "  - Files that were created or read via file tools";
    "  - Phonology analysis results from analyze_phonology tool";
    "  - Grammar validation results from validate_grammar tool";
    EmptyString;
    "**Format the summary to include:**";
    "- Key vocabulary with definitions (including any from tool results)";
    "- Phonological rules and sound inventory";
    "- Grammatical structures and patterns";
    "- Writing system details";
    "- Example sentences or phrases";
    "- Any constraints or preferences mentioned";
    "- **Current lexicon state** (what words have been added)";
    "- **Tool operations performed** and their results";
    EmptyString;
    "**IMPORTANT: Include any lexicon entries that were added through tool calls, as these are part of the established vocabulary.**";
    EmptyString;
    "Be comprehensive and include specific details rather than generic descriptions."
  ].

(** Lines joined by line feeds. *)
Fixpoint join_lines (l : list string) : string :=
  match l with
  | [] => EmptyString
  | [s] => s
  | s :: l' => s +:+ LF +:+ join_lines l'
  end.

Definition summaryPrompt : string := join_lines summaryPrompt_lines.

(** The marking of tool calls in a turn's content. *)
Definition mark_tool_calls (content : string) : string :=
  if Contains content "[Tool Call:" then
    let content := ReplaceAll content "[Tool Call:" "**[Tool Call:" in
    ReplaceAll content "]" "]**"
  else content.

(** One iteration of the loop of [formatExistingContext]:
    [fmt.Sprintf("**%s:** %s\n\n", role, content)]. *)
Definition format_turn (msg : Message) : string :=
  let role := if String.eqb (Role msg) "assistant" then "Assistant" else "User" in
  let content := mark_tool_calls (Content msg) in
  "**" +:+ role +:+ ":** " +:+ content +:+ LF +:+ LF.

Definition formatExistingContext (messages : list Message) : string :=
  if Nat.eqb (length messages) 0 then "No previous conversation"
  else
    let messages :=
      if Z.of_nat (length messages) >? 10 then last_n 10 messages else messages in
    "Previous conversation includes:" +:+ LF +:+ LF
      +:+ concat_strings (map format_turn messages).

Definition generateContextSummary (m : Model) (messages : list Message)
  : exec string :=
  let summaryMessages := [SystemMessage summaryPrompt] ++ messages in
  match llm m with
  | None => Panic "nil pointer dereference"
  | Some client =>
      match Invoke client summaryMessages with
      | (_, Some err) =>
          if Z.of_nat (length messages) <? 5 then Panic "slice bounds out of range"
          else Ret (formatExistingContext (last_n 5 messages))
      | (response, None) =>
          match response with
          | [] => Panic "index out of range"
          | r :: _ => Ret (Content r)
          end
      end
  end.

(** The user and assistant turns of the history, in order. *)
Definition is_dialogue (msg : Message) : bool :=
  String.eqb (Role msg) "user" || String.eqb (Role msg) "assistant".

Definition createCondensedHistory (m : Model) : exec (list Message) :=
  let userMessages := filter (λ msg, is_dialogue msg = true) (history m) in
  contextMessage ←
    (if Z.of_nat (length userMessages) >? 10 then
       summary ← generateContextSummary m (all_but_last userMessages);
       Ret ("CONTEXT: " +:+ summary)
     else if Z.of_nat (length userMessages) >? 0 then
       Ret ("CONTEXT: " +:+ formatExistingContext userMessages)
     else Ret "CONTEXT: No previous conversation");
  let structuredMessage := SystemMessage contextMessage in
  Ret [structuredMessage].

(** *** The token stream pump *)

(** The receive goroutine of [startStreaming], as a machine: it is about
    to call [Recv] with [rest] still to come ([g_recv]), it is sending
    the tokens of the frame it received, after which it updates the
    statistics ([g_send]), or it has returned ([g_done]). *)
Inductive goroutine :=
  | g_recv (rest : list (list Message))
  | g_send (tokens : list string) (rest : list (list Message))
  | g_done.

(** [fmt.Sprintf("\n[Tool Call: %s]\n", toolCall.Function.Name)] *)
Definition toolInfo (toolCall : ToolCall) : string :=
  LF +:+ "[Tool Call: " +:+ Name toolCall +:+ "]" +:+ LF.

(** The tokens the goroutine sends for [message := msg[0]]. *)
Definition frame_tokens (message : Message) : list string :=
  map toolInfo (ToolCalls message)
    ++ (if String.eqb (Content message) EmptyString then [] else [Content message]).

(** One step of the goroutine; [None] when it cannot move (it has
    returned, or it is blocked on a full channel). *)
Definition goroutine_step (w : World) (g : goroutine) : option (World * goroutine) :=
  match g with
  | g_recv [] =>
      (* Recv returns io.EOF or another error: break; the deferred
         calls clear [thinking] and close the channel *)
      let m := set_thinking false (model w) in
      let m := set_tokenChan (MkChan (buf (tokenChan m)) true) m in
      Some (MkWorld m (fs w), g_done)
  | g_recv (msg :: rest) =>
      match msg with
      | [] => Some (w, g_recv rest)
      | message :: _ => Some (w, g_send (frame_tokens message) rest)
      end
  | g_send (token :: tokens) rest =>
      let c := tokenChan (model w) in
      if (length (buf c) <? chan_capacity)%nat then
        let m := set_tokenChan (MkChan (buf c ++ [token]) (closed c)) (model w) in
        Some (MkWorld m (fs w), g_send tokens rest)
      else None
  | g_send [] rest =>
      let total := int_add (TotalTokens (stats (model w))) 1 in
      Some (UpdateStats w (MkStats total), g_recv rest)
  | g_done => None
  end.

(** The body of the command returned by [startStreaming]: the world
    after it, the goroutine it started if any, and the message it
    returns ([None] for nil). *)
Definition startStreaming (now : Time) (w : World) (userMessage : string)
  : exec (World * option goroutine * option Msg) :=
  let m := model w in
  contextMessages ← createCondensedHistory m;
  let requestMessage := UserMessage ("REQUEST: " +:+ userMessage) in
  let messages := contextMessages ++ [requestMessage] in
  let systemMessages :=
    filter (λ msg, String.eqb (Role msg) "system" = true) (history m) in
  let messages :=
    if Z.of_nat (length systemMessages) >? 0 then systemMessages ++ messages
    else messages in
  match llm m with
  | None => Panic "nil pointer dereference"
  | Some client =>
      match Stream client messages with
      | (_, Some err) =>
          let m := set_streaming false (set_thinking false m) in
          m ← updateViewportContent now m;
          Ret (MkWorld m (fs w), None, None)
      | (response, None) =>
          let m := set_tokenChan make_chan m in
          Ret (MkWorld m (fs w), Some (g_recv (frames response)), Some streamStartMsg)
      end
  end.

(** *** Update *)

Definition int_sub (x y : Z) : Z := wrap_int (x - y).

(** The tail of [Update], reached by the cases that do not return:
    both widgets see the message. *)
Definition update_widgets (m : Model) (msg : Msg) (cmds : list Cmd)
  : Model * Cmd :=
  let '(ta', cmd) := ta_Update (ta m) msg in
  let m := set_ta ta' m in
  let cmds := cmds ++ [widgetCmd cmd] in
  if ready m then
    let '(hold', cmd) := vp_Update (hold m) msg in
    (set_hold hold' m, Batch (cmds ++ [widgetCmd cmd]))
  else (m, Batch cmds).

(** [Update], when the clock reads [now]. *)
Definition Update (now : Time) (w : World) (msg : Msg) : exec (World * Cmd) :=
  let m := model w in
  match msg with
  | WindowSizeMsg Width Height =>
      let viewportWidth := int_sub Width 2 in
      let viewportHeight := int_sub Height (int_add ascii_rows 3) in
      let viewportWidth := if viewportWidth <? 1 then 1 else viewportWidth in
      let viewportHeight := if viewportHeight <? 1 then 1 else viewportHeight in
      let vp := viewport_New viewportWidth viewportHeight in
      let m := set_ready true (set_size Width Height (set_hold vp m)) in
      match NewTermRenderer (int_sub viewportWidth 4) with
      | (_, Some err) => Fatal err
      | (g, None) =>
          let m := set_glam (Some g) m in
          m ← updateViewportContent now m;
          let '(m, cmd) := update_widgets m msg [] in
          Ret (MkWorld m (fs w), cmd)
      end
  | tickMsg =>
      if streaming m then
        match buf (tokenChan m), closed (tokenChan m) with
        | [], true =>
            (* token, ok := <-m.tokenChan with !ok *)
            let m := set_streaming false m in
            let m := AddToHistory m (AssistantMessage (currentResponse m) []) in
            let m := resetOptimizationParams m in
            let m := set_lastRenderTime zero_Time m in
            m ← updateViewportContentInternal m;
            let o := fst (WriteConversation (fs w) (history m)) in
            Ret (MkWorld m o, tickNil)
        | token :: rest, closed_ =>
            let m := set_tokenChan (MkChan rest closed_) m in
            let m := set_currentResponse (currentResponse m +:+ token) m in
            let m := adjustOptimizationParams m in
            let m := cleanupLongResponse m in
            m ← updateViewportContent now m;
            Ret (MkWorld m (fs w), tick)
        | [], false => Ret (w, tick)
        end
      else Ret (w, nilCmd)
  | exitMsg => Ret (w, exitSequence)
  | streamStartMsg => Ret (w, tick)
  | KeyMsg KeyEsc =>
      let m := if ta_Focused (ta m) then set_ta (ta_Blur (ta m)) m else m in
      let '(m, cmd) := update_widgets m msg [] in
      Ret (MkWorld m (fs w), cmd)
  | KeyMsg KeyEnter =>
      if streaming m then Ret (w, nilCmd)
      else
        let userMessage := ta_Value (ta m) in
        if String.eqb userMessage EmptyString then Ret (w, nilCmd)
        else
          let m := AddToHistory m (UserMessage userMessage) in
          m ← updateViewportContent now m;
          let m := set_streaming true m in
          let m := set_currentResponse EmptyString m in
          let m := set_tokenChan make_chan m in
          let cmds := [startStreamingCmd userMessage] in
          let m := set_ta (ta_SetValue (ta m) EmptyString) m in
          Ret (MkWorld m (fs w), Batch cmds)
  | KeyMsg KeyCtrlC =>
      let o := fst (WriteConversation (fs w) (history m)) in
      let o := fst (WriteStats o (stats m)) in
      Ret (MkWorld m o, ExitCmd)
  | KeyMsg (KeyOther _) =>
      let '(m, cmds) :=
        if negb (ta_Focused (ta m)) then
          let '(ta', cmd) := ta_Focus (ta m) in
          (set_ta ta' m, [widgetCmd cmd])
        else (m, []) in
      let '(m, cmd) := update_widgets m msg cmds in
      Ret (MkWorld m (fs w), cmd)
  | otherMsg _ =>
      let '(m, cmd) := update_widgets m msg [] in
      Ret (MkWorld m (fs w), cmd)
  end.

(** The command returned by [Exit], when it runs. *)
Definition Exit (m : Model) : Model * Msg := (set_quit true m, exitMsg).

(** *** Start-up *)

Definition NewModel (o : OS) : exec Model :=
  match CheckFile o ConversationFile with
  | (_, Some err) => Fatal err
  | (exists_, None) =>
      let history :=
        if exists_ then
          match ReadConversation o with
          | (_, Some _) => []
          | (history, None) => history
          end
        else [] in
      let ti := textarea_New in
      let stats :=
        match ReadStats o with
        | (_, Some _) => MkStats 0
        | (stats, None) => stats
        end in
      Ret (MkModel ti viewport_zero 0 0 false None history false EmptyString
             make_chan None stats false false
             10 0 5 zero_Time (100 * Millisecond))
  end.

Definition SetPrompts (w : World) : exec World :=
  match ReadSystem (fs w) with
  | (_, (_, Some err)) => Fatal err
  | (o, (system, None)) => Ret (MkWorld (AddToHistory (model w) (SystemMessage system)) o)
  end.

Definition SetLLM (w : World) (client : Runnable) : exec World :=
  SetPrompts (MkWorld (set_llm (Some client) (model w)) (fs w)).

Definition SetHistory (m : Model) (history : list Message) : Model :=
  set_history history m.

Definition SetStats (w : World) : exec World :=
  match ReadStats (fs w) with
  | (_, Some err) => Fatal err
  | (stats, None) => Ret (MkWorld (set_stats stats (model w)) (fs w))
  end.

(** [main], up to the start of the event loop. *)
Definition startup (o : OS) (client : Runnable) : exec World :=
  m ← NewModel o;
  SetLLM (MkWorld m o) client.

(** *** The running program

    The event loop, the commands it has been handed and the receive
    goroutines run interleaved.  A label names the next thing to
    happen: the loop handles a message, a pending command runs, or a
    goroutine moves.  The loop may be handed any message at any time,
    which covers every order in which the runtime can deliver the
    messages that commands produce. *)

Record Sys := MkSys {
  world : World;
  pending : list Cmd;
  goroutines : list goroutine
}.

Inductive label :=
  | l_msg (now : Time) (msg : Msg)
  | l_cmd (now : Time) (i : nat)
  | l_go (i : nat).

(** The commands in a command: [tea.Batch] flattened, nil dropped. *)
Fixpoint flatten (c : Cmd) : list Cmd :=
  match c with
  | Batch l =>
      (fix go (l : list Cmd) : list Cmd :=
         match l with
         | [] => []
         | c :: l' => flatten c ++ go l'
         end) l
  | nilCmd => []
  | _ => [c]
  end.

(** One step; [None] when the label is not enabled. *)
Definition step (l : label) (s : Sys) : option (exec Sys) :=
  match l with
  | l_msg now msg =>
      Some ('(w, cmd) ← Update now (world s) msg;
            Ret (MkSys w (pending s ++ flatten cmd) (goroutines s)))
  | l_cmd now i =>
      match pending s !! i with
      | None => None
      | Some (startStreamingCmd userMessage) =>
          Some ('(w, g, _) ← startStreaming now (world s) userMessage;
                Ret (MkSys w (delete i (pending s))
                       (goroutines s ++ option_list g)))
      | Some ExitCmd =>
          let '(m, _) := Exit (model (world s)) in
          Some (Ret (MkSys (MkWorld m (fs (world s))) (delete i (pending s))
                       (goroutines s)))
      | Some _ => Some (Ret (MkSys (world s) (delete i (pending s)) (goroutines s)))
      end
  | l_go i =>
      match goroutines s !! i with
      | None => None
      | Some g =>
          match goroutine_step (world s) g with
          | None => None
          | Some (w, g') => Some (Ret (MkSys w (pending s) (<[ i := g' ]> (goroutines s))))
          end
      end
  end.

(** A run: the state after the labels, when each is enabled and none
    stops the process. *)
Fixpoint run_labels (ls : list label) (s : Sys) : option (exec Sys) :=
  match ls with
  | [] => Some (Ret s)
  | l :: ls' =>
      match step l s with
      | Some (Ret s') => run_labels ls' s'
      | r => r
      end
  end.

Definition run (s : Sys) (ls : list label) (s' : Sys) : Prop :=
  run_labels ls s = Some (Ret s').

End WithLibraries.
End ui.

(** * Vocabulary of the properties *)

Module spec.
Import os storage ui.
Local Open Scope Z_scope.

(** A record is absent when [CheckFile] finds nothing at its path. *)
Definition record_absent (o : OS) (file : FileKind) : Prop :=
  CheckFile o file = (false, None).

(** A record is malformed when it can be read and the JSON library rejects
    its content. *)
Definition conversation_malformed `{!JSON} (o : OS) : Prop :=
  ∃ data err, storage.ReadFile o ConversationFile = (data, None)
              ∧ snd (Unmarshal_history data) = Some err.

Definition stats_malformed `{!JSON} (o : OS) : Prop :=
  ∃ data err, storage.ReadFile o StatsFile = (data, None)
              ∧ snd (Unmarshal_stats data) = Some err.

(** The model of a session that starts with the given history and
    statistics: idle, nothing pending, default render parameters. *)
Definition initial_model `{!Toolkit} (history : list Message) (stats : Stats) : Model :=
  MkModel textarea_New viewport_zero 0 0 false None history false EmptyString
    make_chan None stats false false 10 0 5 zero_Time (100 * Millisecond).

(** The throttle interval as a function of the response length, as the
    specification words it: 100ms under 5,000, 150ms between 5,000 and
    10,000, 200ms above 10,000. *)
Definition spec_interval (n : Z) : Duration :=
  if n <? 5000 then 100 * Millisecond
  else if n <=? 10000 then 150 * Millisecond
  else 200 * Millisecond.

(** The throttle interval as [adjustOptimizationParams] sets it. *)
Definition throttle_interval (n : Z) : Duration :=
  if n >? 10000 then 200 * Millisecond
  else if n >? 5000 then 150 * Millisecond
  else 100 * Millisecond.

(** The strings [subs] occur in [s] one after the other, without overlap. *)
Fixpoint in_order (subs : list string) (s : string) : Prop :=
  match subs with
  | [] => True
  | sub :: subs' => ∃ pre post, s = pre +:+ (sub +:+ post) ∧ in_order subs' post
  end.

(** The user and assistant turns of a history. *)
Definition dialogue (history : list Message) : list Message :=
  filter (λ msg, is_dialogue msg = true) history.

(** A string of [n] copies of a byte. *)
Fixpoint repeat_byte (c : ascii) (n : nat) : string :=
  match n with
  | O => EmptyString
  | S n' => String c (repeat_byte c n')
  end.

Section WithLibraries.
Context `{!Toolkit, !JSON}.

(** The window has been sized: the renderer is there. *)
Definition sized (m : Model) : Prop := is_Some (glam m).

(** What a render changes in the model: the viewport and the render time. *)
Definition repaint (h : viewport) (t : Time) (m : Model) : Model :=
  set_hold h (set_lastRenderTime t m).

(** Two models that differ in the widgets and the render time at most. *)
Definition same_session (m m' : Model) : Prop :=
  history m' = history m ∧ streaming m' = streaming m
  ∧ currentResponse m' = currentResponse m ∧ tokenChan m' = tokenChan m
  ∧ stats m' = stats m ∧ llm m' = llm m
  ∧ maxHistoryDisplay m' = maxHistoryDisplay m
  ∧ (sized m → sized m').



(** A run during which the session is streaming in every state. *)
Fixpoint streams (s : Sys) (ls : list label) (s' : Sys) : Prop :=
  streaming (model (world s)) = true ∧
  match ls with
  | [] => s' = s
  | l :: ls' => ∃ s1, step l s = Some (Ret s1) ∧ streams s1 ls' s'
  end.

(** Frames for which the goroutine updates the statistics: [len(msg) > 0]. *)
Definition counted_frames (fr : list (list Message)) : list (list Message) :=
  filter (λ msg, msg ≠ []) fr.

(** Frames that carry text: [msg[0].Content] is not empty. *)
Definition has_text (msg : list Message) : bool :=
  match msg with
  | message :: _ => negb (String.eqb (Content message) EmptyString)
  | [] => false
  end.

Definition text_frames (fr : list (list Message)) : list (list Message) :=
  filter (λ msg, has_text msg = true) fr.

(** The number of times a goroutine has yet to call [UpdateStats]. *)
Definition updates_left (g : goroutine) : Z :=
  match g with
  | g_recv rest => Z.of_nat (length (counted_frames rest))
  | g_send _ rest => 1 + Z.of_nat (length (counted_frames rest))
  | g_done => 0
  end.

(** The updates that all the goroutines have yet to make. *)
Definition total_left (gs : list goroutine) : Z :=
  foldr (λ g acc, updates_left g + acc) 0 gs.

(** The run [streams], computed: the state after the labels when the
    session is streaming in every state on the way. *)
Fixpoint stream_labels (ls : list label) (s : Sys) : option Sys :=
  if streaming (model (world s)) then
    match ls with
    | [] => Some s
    | l :: ls' =>
        match step l s with
        | Some (Ret s1) => stream_labels ls' s1
        | _ => None
        end
    end
  else None.

(** Commands that start a stream, and goroutines that have not returned. *)
Definition is_start (c : Cmd) : bool :=
  match c with
  | startStreamingCmd _ => true
  | _ => false
  end.

Definition is_running (g : goroutine) : bool :=
  match g with
  | g_done => false
  | _ => true
  end.

(** The streams in progress: those about to start and those whose
    goroutine runs. *)
Definition starts (s : Sys) : nat :=
  length (filter (λ c, is_start c = true) (pending s)).

Definition running (s : Sys) : nat :=
  length (filter (λ g, is_running g = true) (goroutines s)).

Definition active (s : Sys) : nat := (starts s + running s)%nat.

(** At most one stream is in progress, and while one is the session says
    so and its channel is open. *)
Definition one_stream (s : Sys) : Prop :=
  (active s ≤ 1)%nat
  ∧ ((1 ≤ active s)%nat →
     streaming (model (world s)) = true
     ∧ closed (tokenChan (model (world s))) = false).

(** The tokens a frame makes the goroutine send. *)
Definition frame_out (msg : list Message) : list string :=
  match msg with
  | [] => []
  | message :: _ => frame_tokens message
  end.

(** The text of a stream: all its tokens, in order. *)
Definition stream_text (fr : list (list Message)) : string :=
  concat_strings (flat_map frame_out fr).

(** The text a goroutine has yet to send. *)
Definition text_left (g : goroutine) : string :=
  match g with
  | g_recv rest => stream_text rest
  | g_send tokens rest => concat_strings tokens +:+ stream_text rest
  | g_done => EmptyString
  end.

(** The text on its way to the response: the tokens in the channel, then
    what the goroutines have yet to send. *)
Definition undelivered (s : Sys) : string :=
  concat_strings (buf (tokenChan (model (world s))))
    +:+ concat_strings (map text_left (goroutines s)).

(** A message that leaves the session as it is: at most the widgets, the
    render time and the files change, and no stream is asked for. *)
Definition quiet_update (w w' : World) (cmd : Cmd) : Prop :=
  same_session (model w) (model w')
  ∧ ∀ c, c ∈ flatten cmd → is_start c = false.

(** The stream of the request [u] has not started: its command is the one
    pending, no goroutine runs, nothing has arrived. *)
Definition stream_pending (u : string) (s : Sys) : Prop :=
  starts s = 1%nat ∧ running s = 0%nat
  ∧ (∀ c, c ∈ pending s → is_start c = true → c = startStreamingCmd u)
  ∧ currentResponse (model (world s)) = EmptyString
  ∧ tokenChan (model (world s)) = make_chan.

(** The stream of the text [t] is on its way: no stream waits to start,
    one goroutine at most runs, and the response so far followed by what is
    undelivered is [t]. *)
Definition stream_running (t : string) (s : Sys) : Prop :=
  starts s = 0%nat ∧ one_stream s
  ∧ currentResponse (model (world s)) +:+ undelivered s = t.

(** The messages [startStreaming] sends to the backend: the system turns
    of the history, the context message, the request. *)
Definition outbound (history : list Message) (context : Message) (userMessage : string)
  : list Message :=
  filter (λ msg, String.eqb (Role msg) "system" = true) history
    ++ [context; UserMessage ("REQUEST: " +:+ userMessage)].

End WithLibraries.

(** The range of a Go [int]. *)
Definition in_int_range (z : Z) : Prop := min_int <= z <= max_int.

End spec.

(** ** Concrete libraries, to run the program on examples

    A plain instance of each interface: widgets that only hold their data, a
    renderer that returns its input, and a JSON codec for the three
    persisted types that prints the fields in order and reads back what it
    prints. *)

Module sample.
Import os storage ui spec.
Local Open Scope Z_scope.

Record plain_viewport := MkPlainViewport {
  pv_content : string;
  pv_width : Z;
  pv_height : Z;
  pv_at_bottom : bool
}.

#[global] Instance plain_toolkit : Toolkit := {|
  textarea := string * bool;
  textarea_New := (EmptyString, true);
  ta_Value := fst;
  ta_SetValue t v := (v, snd t);
  ta_Focused := snd;
  ta_Blur t := (fst t, false);
  widget_cmd := unit;
  ta_Focus t := ((fst t, true), tt);
  ta_Update t msg :=
    match msg with
    | KeyMsg (KeyOther runes) => ((fst t +:+ runes, snd t), tt)
    | _ => (t, tt)
    end;
  viewport := plain_viewport;
  viewport_zero := MkPlainViewport EmptyString 0 0 false;
  viewport_New w h := MkPlainViewport EmptyString w h false;
  vp_Update v _ := (v, tt);
  vp_SetContent v s := MkPlainViewport s (pv_width v) (pv_height v) (pv_at_bottom v);
  vp_GotoBottom v := MkPlainViewport (pv_content v) (pv_width v) (pv_height v) true;
  vp_View := pv_content;
  vp_Height := pv_height;
  vp_Width := pv_width;
  TermRenderer := Z;
  NewTermRenderer w := (w, None);
  glam_Render _ s := (s, None);
  ascii_rows := 7
|}.

(** *** A JSON printer and reader *)

Definition dq : string := String "034"%char EmptyString.
Definition backslash : ascii := "092"%char.

Fixpoint escape (s : string) : string :=
  match s with
  | EmptyString => EmptyString
  | String c s' =>
      if Ascii.eqb c "034"%char || Ascii.eqb c backslash
      then String backslash (String c (escape s'))
      else String c (escape s')
  end.

Definition json_string (s : string) : string := dq +:+ escape s +:+ dq.

Definition json_key (k : string) : string := dq +:+ k +:+ dq +:+ ":".

Fixpoint json_list {A} (f : A → string) (l : list A) : string :=
  match l with
  | [] => EmptyString
  | [x] => f x
  | x :: l' => f x +:+ "," +:+ json_list f l'
  end.

Definition json_array {A} (f : A → string) (l : list A) : string :=
  "[" +:+ json_list f l +:+ "]".

Definition json_toolcall (t : ToolCall) : string :=
  "{" +:+ json_key "function" +:+ "{" +:+ json_key "name" +:+ json_string (Name t)
    +:+ "," +:+ json_key "arguments" +:+ json_string (Arguments t) +:+ "}}".

Definition json_message (m : Message) : string :=
  "{" +:+ json_key "role" +:+ json_string (Role m)
    +:+ "," +:+ json_key "content" +:+ json_string (Content m)
    +:+ match ToolCalls m with
        | [] => EmptyString
        | tcs => "," +:+ json_key "tool_calls" +:+ json_array json_toolcall tcs
        end
    +:+ "}".

(** A reader takes a prefix of the input and returns the rest. *)
Definition reader (A : Type) : Type := string → option (A * string).

Definition expect (lit : string) : reader unit := λ s,
  if HasPrefix s lit then Some (tt, string_drop (String.length lit) s) else None.

(** The characters up to the closing quote, escapes undone. *)
Fixpoint read_chars (s : string) : option (string * string) :=
  match s with
  | EmptyString => None
  | String c s' =>
      if Ascii.eqb c "034"%char then Some (EmptyString, s')
      else if Ascii.eqb c backslash then
        match s' with
        | String c' s'' =>
            match read_chars s'' with
            | Some (r, rest) => Some (String c' r, rest)
            | None => None
            end
        | EmptyString => None
        end
      else
        match read_chars s' with
        | Some (r, rest) => Some (String c r, rest)
        | None => None
        end
  end.

Definition read_string : reader string := λ s,
  match expect dq s with
  | Some (_, s) => read_chars s
  | None => None
  end.

Definition read_field (k : string) : reader string := λ s,
  match expect (json_key k) s with
  | Some (_, s) => read_string s
  | None => None
  end.

(** The elements of an array after its opening bracket. *)
Fixpoint read_elements {A} (fuel : nat) (item : reader A) (s : string)
  : option (list A * string) :=
  match fuel with
  | O => None
  | S fuel' =>
      match item s with
      | None => None
      | Some (x, s) =>
          match expect "," s with
          | Some (_, s) =>
              match read_elements fuel' item s with
              | Some (l, s) => Some (x :: l, s)
              | None => None
              end
          | None =>
              match expect "]" s with
              | Some (_, s) => Some ([x], s)
              | None => None
              end
          end
      end
  end.

Definition read_array {A} (item : reader A) : reader (list A) := λ s,
  match expect "[" s with
  | None => None
  | Some (_, s) =>
      match expect "]" s with
      | Some (_, s) => Some ([], s)
      | None => read_elements (String.length s) item s
      end
  end.

Definition read_toolcall : reader ToolCall := λ s,
  '(_, s) ← expect ("{" +:+ json_key "function" +:+ "{") s;
  '(name, s) ← read_field "name" s;
  '(_, s) ← expect "," s;
  '(args, s) ← read_field "arguments" s;
  '(_, s) ← expect "}}" s;
  Some (MkToolCall name args, s).

Definition read_message : reader Message := λ s,
  '(_, s) ← expect "{" s;
  '(role, s) ← read_field "role" s;
  '(_, s) ← expect "," s;
  '(content, s) ← read_field "content" s;
  match expect ("," +:+ json_key "tool_calls") s with
  | Some (_, s) =>
      '(tcs, s) ← read_array read_toolcall s;
      '(_, s) ← expect "}" s;
      Some (MkMessage role content tcs, s)
  | None =>
      '(_, s) ← expect "}" s;
      Some (MkMessage role content [], s)
  end.

(** Decimal digits of a natural number. *)
Fixpoint read_digits (s : string) (acc : Z) : Z * string :=
  match s with
  | String c s' =>
      let d := Z.of_nat (nat_of_ascii c) - 48 in
      if (0 <=? d) && (d <=? 9) then read_digits s' (10 * acc + d) else (acc, s)
  | EmptyString => (acc, s)
  end.

Definition read_stats : reader Stats := λ s,
  '(_, s) ← expect ("{" +:+ json_key "total_tokens") s;
  match s with
  | String c _ =>
      let d := Z.of_nat (nat_of_ascii c) - 48 in
      if (0 <=? d) && (d <=? 9) then
        let '(n, s) := read_digits s 0 in
        '(_, s) ← expect "}" s;
        Some (MkStats n, s)
      else None
  | EmptyString => None
  end.

(** The whole input must be one value. *)
Definition unmarshal {A} (zero : A) (r : reader A) (data : string)
  : A * option error :=
  match r data with
  | Some (v, EmptyString) => (v, None)
  | _ => (zero, Some (ErrJSON "invalid character"))
  end.

#[global] Instance plain_json : storage.JSON := {|
  Marshal_history h := (json_array json_message h, None);
  Unmarshal_history := unmarshal [] (read_array read_message);
  Marshal_stats st :=
    ("{" +:+ json_key "total_tokens" +:+ pretty (Z.to_N (TotalTokens st)) +:+ "}", None);
  Unmarshal_stats := unmarshal (MkStats 0) read_stats
|}.

Definition json_entry (e : tools.LexiconEntry) : string :=
  "{" +:+ json_key "word" +:+ json_string (tools.Word e)
    +:+ "," +:+ json_key "definition" +:+ json_string (tools.Definition_ e)
    +:+ "," +:+ json_key "part_of_speech" +:+ json_string (tools.PartOfSpeech e)
    +:+ "," +:+ json_key "etymology" +:+ json_string (tools.Etymology e) +:+ "}".

Definition read_entry : reader tools.LexiconEntry := λ s,
  '(_, s) ← expect "{" s;
  '(word, s) ← read_field "word" s;
  '(_, s) ← expect "," s;
  '(definition, s) ← read_field "definition" s;
  '(_, s) ← expect "," s;
  '(pos, s) ← read_field "part_of_speech" s;
  '(_, s) ← expect "," s;
  '(etymology, s) ← read_field "etymology" s;
  '(_, s) ← expect "}" s;
  Some (tools.MkLexiconEntry word definition pos etymology, s).

#[global] Instance plain_lexicon_json : tools.JSON := {|
  tools.MarshalIndent_lexicon l := (json_array json_entry l, None);
  tools.Unmarshal_lexicon := unmarshal [] (read_array read_entry)
|}.

(** *** Backends *)

(** A backend whose summarization call fails and whose stream yields the
    given frames. *)
Definition streaming_backend (fr : list (list Message)) : Runnable :=
  MkRunnable (λ _, ([], Some (ErrBackend "summarization unavailable")))
             (λ _, (MkStreamReader fr EOF, None)).

(** A backend that cannot be reached. *)
Definition offline_backend : Runnable :=
  MkRunnable (λ _, ([], Some (ErrBackend "connection refused")))
             (λ _, (MkStreamReader [] EOF, Some (ErrBackend "connection refused"))).

(** *** File systems *)

Definition home_dir : list string := ["home"; "u"].

(** A fresh account: the home directory exists and holds nothing. *)
Definition fresh_os : OS :=
  MkOS {[ ["home"]; home_dir ]} ∅ home_dir (Some home_dir).

(** The application directories exist, with the bundled prompt in place. *)
Definition installed_os : OS :=
  MkOS {[ ["home"]; home_dir; home_dir ++ ["l2"];
          home_dir ++ ["l2"; "conversations"]; home_dir ++ ["l2"; "data"] ]}
       (<[ home_dir ++ ["l2"; "system.md"] := "You are ConlangGPT." ]> ∅)
       home_dir (Some home_dir).

(** The store of an interrupted run: both JSON records are cut short. *)
Definition corrupted_os : OS :=
  MkOS (dirs installed_os)
       (<[ home_dir ++ ["l2"; "conversations"; "conversation.json"] := "[{" ]>
          (<[ home_dir ++ ["l2"; "stats.json"] := "{" ]> (files installed_os)))
       home_dir (Some home_dir).



(** A session in mid-stream on a sized window: [response] has been taken
    from the channel so far and [tokens] wait in it. *)
Definition streaming_world (history : list Message) (response : string)
    (tokens : list string) (closed_ : bool) : World :=
  MkWorld
    (MkModel (EmptyString, true) (viewport_New 78 14) 24 80 true None history true
       response (MkChan tokens closed_) (Some 74) (MkStats 0) false false
       10 0 5 zero_Time (100 * Millisecond))
    installed_os.

(** A clock reading: some time in the year 2026. *)
Definition clock (ms : Z) : Time := 63900000000000000000 + ms * Millisecond.

(** An idle session on a sized window with the given history and backend. *)
Definition idle_world (history : list Message) (client : Runnable) (input : string)
  : World :=
  MkWorld
    (MkModel (input, true) (viewport_New 78 14) 24 80 true (Some client) history false
       EmptyString make_chan (Some 74) (MkStats 0) false false
       10 0 5 zero_Time (100 * Millisecond))
    installed_os.

(** The reply of an assistant that called a tool, as the pump records it. *)
Definition tool_reply : string :=
  toolInfo (MkToolCall "add_lexicon_entry" "{}") +:+ "Added.".

(** Eleven user turns, "t1" to "t11". *)
Definition eleven_turns : list Message :=
  map UserMessage ["t1"; "t2"; "t3"; "t4"; "t5"; "t6"; "t7"; "t8"; "t9"; "t10"; "t11"].

(** The stream of the end-to-end scenario: three text frames. *)
Definition hello_frames : list (list Message) :=
  [[AssistantMessage "Hi" []]; [AssistantMessage " there" []]; [AssistantMessage "!" []]].

(** The session of the scenario: idle, "Hello" typed, no history yet. *)
Definition hello_start : Sys :=
  MkSys (idle_world [] (streaming_backend hello_frames) "Hello") [] [].




(** The goroutine runs to its end and the event loop drains the channel
    after it. *)
Definition goroutine_first : list label :=
  [l_go 0; l_go 0; l_go 0; l_go 0; l_go 0; l_go 0; l_go 0; l_go 0; l_go 0; l_go 0;
   l_msg (clock 50) tickMsg; l_msg (clock 100) tickMsg; l_msg (clock 250) tickMsg].

(** A session whose stream of three text frames has just started, and the
    same session after the schedule [goroutine_first]. *)
Definition hello_streaming : Sys :=
  MkSys (streaming_world [UserMessage "Hello"] EmptyString [] false) []
        [g_recv hello_frames].

Definition hello_counted : Sys :=
  match stream_labels goroutine_first hello_streaming with
  | Some s => s
  | None => hello_streaming
  end.

(** A stream of one frame that carries a tool call and no text. *)
Definition tool_frames : list (list Message) :=
  [[AssistantMessage EmptyString [MkToolCall "add_lexicon_entry" "{}"]]].

Definition tool_start : Sys :=
  MkSys (streaming_world [UserMessage "add ka"] EmptyString [] false) []
        [g_recv tool_frames].

(** A fresh account with the bundled prompt in the working directory. *)
Definition unseeded_os : OS :=
  MkOS {[ ["home"]; home_dir ]}
       (<[ home_dir ++ ["system.md"] := "You are ConlangGPT." ]> ∅)
       home_dir (Some home_dir).

(** A conversation of two turns. *)
Definition hello_history : list Message :=
  [UserMessage "Hello"; AssistantMessage "Hi there!" []].

(** The scenario from the enter key to the middle of the stream: the
    command has started the stream and the goroutine has received the first
    frame and sent its token. *)
Definition hello_run : list label :=
  [l_msg (clock 0) (KeyMsg KeyEnter); l_cmd (clock 10) 0; l_go 0; l_go 0].

Definition hello_midway : Sys :=
  match run_labels hello_run hello_start with
  | Some (Ret s) => s
  | _ => hello_start
  end.

(** A session that resumed the conversation of two turns, idle. *)
Definition resumed_world : World :=
  idle_world (SystemMessage "You are ConlangGPT." :: hello_history)
    (streaming_backend hello_frames) EmptyString.

(** An account without a home directory: [$HOME] is not set. *)
Definition homeless_os : OS :=
  MkOS {[ ["home"]; home_dir ]} ∅ home_dir None.

(** A store whose lexicon was cut short. *)
Definition broken_lexicon_os : OS :=
  MkOS (dirs installed_os)
       (<[ home_dir ++ ["l2"; "data"; "lexicon.json"] := "[{" ]> (files installed_os))
       home_dir (Some home_dir).

(** A session that has not been told the size of its window, "Hello"
    typed. *)
Definition unsized_world : World :=
  MkWorld
    (MkModel ("Hello", true) viewport_zero 0 0 false
       (Some (streaming_backend hello_frames)) [] false
       EmptyString make_chan None (MkStats 0) false false
       10 0 5 zero_Time (100 * Millisecond))
    installed_os.

(** A session whose backend cannot be reached, with a request under way. *)
Definition unreachable_world : World :=
  MkWorld
    (MkModel (EmptyString, true) (viewport_New 78 14) 24 80 true (Some offline_backend)
       [SystemMessage "You are ConlangGPT."; UserMessage "Hello"] true
       EmptyString make_chan (Some 74) (MkStats 0) false false
       10 0 5 zero_Time (100 * Millisecond))
    installed_os.

End sample.


(** * Properties *)

(** ** Strings *)

Lemma app_String (x : ascii) (a b : string) : String x a +:+ b = String x (a +:+ b).
Proof. reflexivity. Qed.

Lemma app_Empty (b : string) : EmptyString +:+ b = b.
Proof. reflexivity. Qed.

Lemma string_app_assoc (a b c : string) : (a +:+ b) +:+ c = a +:+ (b +:+ c).
Proof.
  induction a as [|x a IH]; [reflexivity |].
  by rewrite !app_String, IH.
Qed.

Lemma string_app_nil_r (a : string) : a +:+ EmptyString = a.
Proof.
  induction a as [|x a IH]; [reflexivity |].
  by rewrite app_String, IH.
Qed.

Lemma string_app_length (a b : string) :
  String.length (a +:+ b) = (String.length a + String.length b)%nat.
Proof.
  induction a as [|x a IH]; [reflexivity |].
  rewrite app_String. simpl. by rewrite IH.
Qed.

Lemma len_app (a b : string) : len (a +:+ b) = (len a + len b)%Z.
Proof. unfold len. rewrite string_app_length. lia. Qed.

Lemma HasPrefix_app (sub post : string) : HasPrefix (sub +:+ post) sub = true.
Proof.
  induction sub as [|x sub IH]; [reflexivity |].
  rewrite app_String. simpl. by rewrite Ascii.eqb_refl.
Qed.

(** [Contains] finds every occurrence. *)
Lemma Contains_intro (pre sub post : string) :
  Contains (pre +:+ (sub +:+ post)) sub = true.
Proof.
  induction pre as [|x pre IH].
  - rewrite app_Empty.
    destruct (sub +:+ post) eqn:E; simpl; rewrite <- E, HasPrefix_app; reflexivity.
  - rewrite app_String. simpl. rewrite IH. apply orb_true_r.
Qed.

(** ** The file system *)

Section os_facts.
Import os.

Lemma mkdirs_frame o base rest :
  files (fst (mkdirs o base rest)) = files o
  ∧ cwd (fst (mkdirs o base rest)) = cwd o
  ∧ home (fst (mkdirs o base rest)) = home o.
Proof.
  revert o base. induction rest as [|c rest IH]; intros o base; simpl; [done |].
  destruct (isFile o (base ++ [c])); simpl; [done |].
  destruct (IH (if isDir o (base ++ [c]) then o else add_dir o (base ++ [c]))
               (base ++ [c])) as (Hf & Hc & Hh).
  rewrite Hf, Hc, Hh. by destruct (isDir o (base ++ [c])).
Qed.

Lemma MkdirAll_files o p : files (fst (MkdirAll o p)) = files o.
Proof. apply mkdirs_frame. Qed.

Lemma MkdirAll_home o p : home (fst (MkdirAll o p)) = home o.
Proof. apply mkdirs_frame. Qed.

Lemma MkdirAll_cwd o p : cwd (fst (MkdirAll o p)) = cwd o.
Proof. apply mkdirs_frame. Qed.


(** [os.WriteFile] fails when the parent directory is missing. *)
Lemma WriteFile_missing_parent o p data :
  isDir o (removelast (resolve o p)) = false →
  isDir o (resolve o p) = false →
  ∃ err, WriteFile o p data = (o, Some err).
Proof.
  unfold WriteFile. intros -> ->.
  destruct (isFile o (removelast (resolve o p))); eauto.
Qed.

End os_facts.

(** ** The persistence store *)

Section storage_facts.
Import os storage.
Context `{!JSON}.


Lemma GetPath_home o o' file : home o' = home o → GetPath o' file = GetPath o file.
Proof. unfold GetPath, UserHomeDir. by intros ->. Qed.




End storage_facts.


(** ** Start-up and the layout of the store *)

Section startup_facts.
Import os storage ui spec.
Context `{!Toolkit, !JSON}.

Lemma CheckFile_home_set o file b :
  CheckFile o file = (b, None) → ∃ h, home o = Some h.
Proof.
  unfold CheckFile, GetPath, UserHomeDir.
  destruct (home o) as [h|]; [eauto | discriminate].
Qed.

Lemma CheckFile_no_error o file file' b :
  CheckFile o file = (b, None) → ∃ b', CheckFile o file' = (b', None).
Proof.
  intros [h Hh]%CheckFile_home_set.
  unfold CheckFile, GetPath, UserHomeDir. rewrite Hh. simpl.
  destruct (Stat o _); eauto.
Qed.

Lemma ReadFile_exists o file data :
  storage.ReadFile o file = (data, None) → CheckFile o file = (true, None).
Proof.
  unfold storage.ReadFile.
  destruct (CheckFile o file) as [[|] [err|]]; (discriminate || done).
Qed.

Lemma NewModel_returns o b :
  CheckFile o ConversationFile = (b, None) →
  ∃ h st, NewModel o = Ret (initial_model h st)
          ∧ h = (if b then
                   match ReadConversation o with
                   | (_, Some _) => []
                   | (h, None) => h
                   end
                 else [])
          ∧ st = match ReadStats o with
                 | (_, Some _) => MkStats 0
                 | (st, None) => st
                 end.
Proof.
  intros Hc. unfold NewModel. rewrite Hc. eauto.
Qed.

(** C8. Start-up with a missing or malformed record: [NewModel] returns,
    with an empty history when the conversation record is absent or
    malformed and with a zero token count when the statistics record is;
    in both cases the model is that of a first run. *)
Theorem NewModel_tolerates_bad_records o :
  (record_absent o ConversationFile ∨ conversation_malformed o →
     ∃ st, NewModel o = Ret (initial_model [] st))
  ∧ (record_absent o StatsFile ∨ stats_malformed o →
     ∃ h, NewModel o = Ret (initial_model h (MkStats 0))).
Proof.
  split.
  - intros [Habs | (data & err & Hr & Hu)].
    + destruct (NewModel_returns o false Habs) as (h & st & -> & -> & _). eauto.
    + pose proof (ReadFile_exists _ _ _ Hr) as Hc.
      destruct (NewModel_returns o true Hc) as (h & st & -> & -> & _).
      unfold ReadConversation. rewrite Hr.
      destruct (Unmarshal_history data) as [h' [e|]]; [eauto | discriminate].
  - intros Hbad.
    assert (∃ b, CheckFile o ConversationFile = (b, None)) as [b Hc].
    { destruct Hbad as [Habs | (data & err & Hr & _)].
      - eapply CheckFile_no_error, Habs.
      - eapply CheckFile_no_error, ReadFile_exists, Hr. }
    destruct (NewModel_returns o b Hc) as (h & st & -> & _ & ->).
    destruct Hbad as [Habs | (data & err & Hr & Hu)].
    + unfold ReadStats, storage.ReadFile. rewrite Habs. eauto.
    + unfold ReadStats. rewrite Hr.
      destruct (Unmarshal_stats data) as [st' [e|]]; [eauto | discriminate].
Qed.

End startup_facts.

Lemma NewModel_tolerates_bad_records_witness :
  spec.conversation_malformed sample.corrupted_os
  ∧ spec.stats_malformed sample.corrupted_os
  ∧ (∃ st, ui.NewModel sample.corrupted_os = Ret (spec.initial_model [] st))
  ∧ (∃ h, ui.NewModel sample.corrupted_os = Ret (spec.initial_model h (storage.MkStats 0))).
Proof.
  assert (Hc : spec.conversation_malformed sample.corrupted_os).
  { exists "[{", (ErrJSON "invalid character"). split; vm_compute; reflexivity. }
  assert (Hs : spec.stats_malformed sample.corrupted_os).
  { exists "{", (ErrJSON "invalid character"). split; vm_compute; reflexivity. }
  split; [exact Hc |]. split; [exact Hs |].
  split; apply (NewModel_tolerates_bad_records sample.corrupted_os); by right.
Defined.

(** C9. The writes of the store on a fresh account, where the application
    directory does not exist yet: each of [WriteConversation], [WriteStats]
    and [WriteDataFile] fails with "no such file or directory" and leaves
    no file behind, because the directory each one creates is not the
    parent of the file it then writes; [CopySystem], which creates the
    directory of the full path, succeeds in creating it. *)
Theorem writes_on_fresh_account :
  let o := sample.fresh_os in
  let app := sample.home_dir ++ ["l2"] in
  os.isDir o app = false
  ∧ snd (storage.WriteConversation o sample.hello_history) = Some ErrNotExist
  ∧ os.files (fst (storage.WriteConversation o sample.hello_history)) = ∅
  ∧ os.isDir (fst (storage.WriteConversation o sample.hello_history))
      (app ++ ["conversations"]) = false
  ∧ os.isDir (fst (storage.WriteConversation o sample.hello_history))
      (sample.home_dir ++ ["conversations"]) = true
  ∧ snd (storage.WriteStats o (storage.MkStats 3)) = Some ErrNotExist
  ∧ os.files (fst (storage.WriteStats o (storage.MkStats 3))) = ∅
  ∧ snd (storage.WriteDataFile o ["lexicon.json"] "[]") = Some ErrNotExist
  ∧ os.files (fst (storage.WriteDataFile o ["lexicon.json"] "[]")) = ∅
  ∧ os.isDir (fst (storage.WriteDataFile o ["lexicon.json"] "[]")) (app ++ ["data"]) = false
  ∧ os.isDir (fst (storage.CopySystem o)) app = true.
Proof. vm_compute. repeat split. Qed.

(** ** The lexicon tool *)

Section lexicon_facts.
Import os storage tools.
Context `{!tools.JSON}.

Lemma has_word_spec entries word :
  has_word entries word = true ↔ ∃ e, e ∈ entries ∧ Word e = word.
Proof.
  induction entries as [|e entries IH]; simpl.
  - split; [discriminate | intros (e & He & _); inversion He].
  - destruct (String.eqb_spec (Word e) word) as [Heq | Hne].
    + split; [intros _; exists e; split; [left | done] | done].
    + rewrite IH. split.
      * intros (e' & He' & Hw). exists e'. split; [by right | done].
      * intros (e' & He' & Hw). inversion He'; subst; [done | eauto].
Qed.


End lexicon_facts.



(** ** The session *)

Section session_facts.
Import os storage ui spec.
Local Open Scope Z_scope.
Context `{!Toolkit, !JSON}.

Lemma Sys_eta (s : Sys) : MkSys (world s) (pending s) (goroutines s) = s.
Proof. by destruct s. Qed.

(** C6. A submission that is turned down changes nothing.  When the enter
    key arrives while the session is streaming, or while it is idle with an
    empty input, [Update] returns the world it was given and no command; in
    the running program the step leaves the whole state as it was: history,
    response in progress, statistics, pending commands and goroutines. *)
Theorem rejected_submission_changes_nothing now s :
  streaming (model (world s)) = true
  ∨ ta_Value (ta (model (world s))) = EmptyString →
  Update now (world s) (KeyMsg KeyEnter) = Ret (world s, nilCmd)
  ∧ step (l_msg now (KeyMsg KeyEnter)) s = Some (Ret s).
Proof.
  intros Hrej.
  assert (HU : Update now (world s) (KeyMsg KeyEnter) = Ret (world s, nilCmd)).
  { unfold Update. destruct (streaming (model (world s))); [done |].
    destruct Hrej as [? | ->]; done. }
  split; [exact HU |].
  unfold step. rewrite HU. simpl. by rewrite app_nil_r, Sys_eta.
Qed.

(** *** Rendering changes the viewport and the render time only *)

Ltac fields :=
  unfold AddToHistory, resetOptimizationParams, adjustOptimizationParams,
    cleanupLongResponse, set_ta, set_hold, set_size, set_ready, set_llm,
    set_history, set_streaming, set_currentResponse, set_tokenChan, set_glam,
    set_stats, set_quit, set_thinking, set_maxHistoryDisplay,
    set_maxResponseLength, set_renderBuffer, set_lastRenderTime,
    set_renderThrottle in *;
  simpl in *.

Lemma repaint_id m : repaint (hold m) (lastRenderTime m) m = m.
Proof. by destruct m. Qed.

Lemma viewport_logs_ret m :
  0 <= maxHistoryDisplay m → ∃ logs, viewport_logs m = Ret logs.
Proof.
  intros Hmax. unfold viewport_logs.
  destruct (Z.of_nat (length (history m)) >? maxHistoryDisplay m); simpl; [| eauto].
  destruct (Z.ltb_spec (maxHistoryDisplay m) 0) as [? | _]; [lia |]. simpl. eauto.
Qed.

Lemma updateViewportContentInternal_inv m m' :
  updateViewportContentInternal m = Ret m' → ∃ h, m' = set_hold h m.
Proof.
  unfold updateViewportContentInternal.
  destruct (viewport_logs m) as [logs | |]; simpl; [| discriminate ..].
  destruct (glam m) as [g|]; [| discriminate]. intros [= <-]. eauto.
Qed.

Lemma updateViewportContentInternal_ret m :
  sized m → 0 <= maxHistoryDisplay m →
  ∃ h, updateViewportContentInternal m = Ret (set_hold h m).
Proof.
  intros [g Hg] Hmax. unfold updateViewportContentInternal.
  destruct (viewport_logs_ret m Hmax) as [logs ->]. simpl. rewrite Hg. eauto.
Qed.

Lemma updateViewportContent_inv now m m' :
  updateViewportContent now m = Ret m' → ∃ h t, m' = repaint h t m.
Proof.
  unfold updateViewportContent.
  destruct (Since now (lastRenderTime m) <? renderThrottle m).
  - intros [= <-]. exists (hold m), (lastRenderTime m). by rewrite repaint_id.
  - intros [h ->]%updateViewportContentInternal_inv. by exists h, now.
Qed.

Lemma updateViewportContent_ret now m :
  sized m → 0 <= maxHistoryDisplay m →
  ∃ h t, updateViewportContent now m = Ret (repaint h t m).
Proof.
  intros Hs Hmax. unfold updateViewportContent.
  destruct (Since now (lastRenderTime m) <? renderThrottle m).
  - exists (hold m), (lastRenderTime m). by rewrite repaint_id.
  - destruct (updateViewportContentInternal_ret (set_lastRenderTime now m))
      as [h Hh]; [done .. |].
    exists h, now. exact Hh.
Qed.

(** *** The throttle *)

Lemma throttle_interval_cases n :
  (n <= 5000 → throttle_interval n = 100 * Millisecond)
  ∧ (5000 < n <= 10000 → throttle_interval n = 150 * Millisecond)
  ∧ (10000 < n → throttle_interval n = 200 * Millisecond).
Proof.
  unfold throttle_interval.
  destruct (Z.gtb_spec n 10000), (Z.gtb_spec n 5000); repeat split; intros; lia || done.
Qed.

Lemma throttle_interval_mono n n' :
  n <= n' → throttle_interval n <= throttle_interval n'.
Proof.
  unfold throttle_interval, Millisecond. intros.
  destruct (Z.gtb_spec n 10000), (Z.gtb_spec n 5000),
    (Z.gtb_spec n' 10000), (Z.gtb_spec n' 5000); lia.
Qed.

(** C5. The throttle while streaming.  When a tick takes a token from the
    channel, the response in progress becomes the old response followed by
    the whole token, nothing dropped, and the throttle interval is set from
    its length [n] in bytes: 100ms when [n <= 5000], 150ms when
    [5000 < n <= 10000], 200ms when [10000 < n], a step function that never
    decreases as the length grows. *)
Theorem throttle_after_fragment now w token rest closed_ :
  streaming (model w) = true →
  tokenChan (model w) = MkChan (token :: rest) closed_ →
  sized (model w) → 0 <= maxHistoryDisplay (model w) →
  ∃ w', Update now w tickMsg = Ret (w', tick)
    ∧ currentResponse (model w') = currentResponse (model w) +:+ token
    ∧ let n := len (currentResponse (model w')) in
      n = len (currentResponse (model w)) + len token
      ∧ renderThrottle (model w') = throttle_interval n
      ∧ (n <= 5000 → renderThrottle (model w') = 100 * Millisecond)
      ∧ (5000 < n <= 10000 → renderThrottle (model w') = 150 * Millisecond)
      ∧ (10000 < n → renderThrottle (model w') = 200 * Millisecond)
      ∧ ∀ n', n <= n' → renderThrottle (model w') <= throttle_interval n'.
Proof.
  intros Hst Hch Hs Hmax. unfold Update. rewrite Hst, Hch. simpl.
  set (m1 := cleanupLongResponse _).
  assert (Hcur : currentResponse m1 = currentResponse (model w) +:+ token).
  { subst m1. fields.
    by destruct (_ >? 10000); [| destruct (_ >? 5000)]. }
  assert (Hthr : renderThrottle m1 = throttle_interval (len (currentResponse m1))).
  { rewrite Hcur. subst m1. unfold throttle_interval. fields.
    by destruct (_ >? 10000); [| destruct (_ >? 5000)]. }
  assert (Hs1 : sized m1).
  { subst m1. fields. by destruct (_ >? 10000); [| destruct (_ >? 5000)]. }
  assert (Hmax1 : 0 <= maxHistoryDisplay m1).
  { subst m1. fields. by destruct (_ >? 10000); [| destruct (_ >? 5000)]. }
  clearbody m1.
  destruct (updateViewportContent_ret now m1 Hs1 Hmax1) as (h & t & ->).
  simpl. eexists. split; [reflexivity |]. simpl.
  change (currentResponse (repaint h t m1)) with (currentResponse m1).
  change (renderThrottle (repaint h t m1)) with (renderThrottle m1).
  rewrite Hthr, Hcur. split; [done |]. split; [apply len_app |].
  split; [done |].
  destruct (throttle_interval_cases (len (currentResponse (model w) +:+ token)))
    as (H1 & H2 & H3).
  repeat (split; [done |]). apply throttle_interval_mono.
Qed.

(** *** The context condenser *)

Lemma format_turn_shape msg :
  ∃ pre post, format_turn msg = pre +:+ (mark_tool_calls (Content msg) +:+ post).
Proof.
  unfold format_turn.
  exists ("**" +:+ (if String.eqb (Role msg) "assistant" then "Assistant" else "User")
            +:+ ":** "), (LF +:+ LF).
  by rewrite !string_app_assoc.
Qed.

Lemma in_order_concat (f g : Message → string) turns prefix :
  (∀ t, ∃ pre post, f t = pre +:+ (g t +:+ post)) →
  in_order (map g turns) (prefix +:+ concat_strings (map f turns)).
Proof.
  intros Hshape. revert prefix.
  induction turns as [|t turns IH]; intros prefix; simpl; [done |].
  destruct (Hshape t) as (pre & post & ->).
  exists (prefix +:+ pre), (post +:+ concat_strings (map f turns)).
  split; [by rewrite !string_app_assoc | apply IH].
Qed.

Lemma in_order_ext subs subs' s :
  subs = subs' → in_order subs s → in_order subs' s.
Proof. by intros ->. Qed.

Lemma mark_tool_calls_plain content :
  Contains content "[Tool Call:" = false → mark_tool_calls content = content.
Proof. unfold mark_tool_calls. by intros ->. Qed.

Lemma formatExistingContext_short turns :
  (1 <= length turns <= 10)%nat →
  formatExistingContext turns
  = "Previous conversation includes:" +:+ LF +:+ LF
      +:+ concat_strings (map format_turn turns).
Proof.
  intros Hlen. unfold formatExistingContext.
  destruct (Nat.eqb_spec (length turns) 0) as [? | _]; [lia |].
  destruct (Z.gtb_spec (Z.of_nat (length turns)) 10) as [? | _]; [lia | done].
Qed.

(** C4. The context of a short conversation.  With between 1 and 10 user
    and assistant turns, [createCondensedHistory] returns one system-role
    message, "CONTEXT: " followed by a header and one labelled entry per
    turn in the order of the history; the entries hold the contents of the
    turns with the tool calls marked, one after the other, and hold the
    contents themselves when none contains a tool-call marker. *)
Theorem context_of_short_conversation m :
  let turns := dialogue (history m) in
  (1 <= length turns <= 10)%nat →
  ∃ body,
    createCondensedHistory m = Ret [SystemMessage ("CONTEXT: " +:+ body)]
    ∧ body = "Previous conversation includes:" +:+ LF +:+ LF
               +:+ concat_strings (map format_turn turns)
    ∧ in_order (map (λ t, mark_tool_calls (Content t)) turns) body
    ∧ ((∀ t, t ∈ turns → Contains (Content t) "[Tool Call:" = false) →
       in_order (map Content turns) body).
Proof.
  intros turns Hlen.
  exists ("Previous conversation includes:" +:+ LF +:+ LF
            +:+ concat_strings (map format_turn turns)).
  assert (Hord : in_order (map (λ t, mark_tool_calls (Content t)) turns)
                   ("Previous conversation includes:" +:+ LF +:+ LF
                      +:+ concat_strings (map format_turn turns))).
  { rewrite <- !string_app_assoc. apply in_order_concat, format_turn_shape. }
  split; [| split; [done | split; [exact Hord |]]].
  - unfold createCondensedHistory. fold (dialogue (history m)). fold turns.
    destruct (Z.gtb_spec (Z.of_nat (length turns)) 10) as [? | _]; [lia |].
    destruct (Z.gtb_spec (Z.of_nat (length turns)) 0) as [_ | ?]; [| lia].
    simpl. by rewrite formatExistingContext_short.
  - intros Hplain. eapply in_order_ext; [| exact Hord].
    apply map_ext_in. intros t Ht. apply mark_tool_calls_plain, Hplain.
    by apply list_elem_of_In.
Qed.

Lemma last_n_all_but_last {A} (l : list A) :
  (10 < length l)%nat →
  last_n 5 (all_but_last l) = take 5 (drop (length l - 6) l)
  ∧ length (last_n 5 (all_but_last l)) = 5%nat.
Proof.
  intros Hlen. unfold last_n, all_but_last.
  rewrite length_take, Nat.min_l by lia.
  replace (length l - 1 - 5)%nat with (length l - 6)%nat by lia.
  assert (Heq : drop (length l - 6) (take (length l - 1) l)
                = take 5 (drop (length l - 6) l)).
  { rewrite skipn_firstn_comm. f_equal. lia. }
  rewrite Heq. split; [done |].
  rewrite length_take, length_drop. lia.
Qed.

(** C3. The context of a long conversation when summarization fails.  With
    more than 10 user and assistant turns and a failing [Invoke], the
    context is the labelled transcript of exactly 5 turns: the last 5 of the
    turns that precede the most recent one. *)
Theorem context_when_summary_fails m client response err :
  let turns := dialogue (history m) in
  (10 < length turns)%nat →
  llm m = Some client →
  Invoke client ([SystemMessage summaryPrompt] ++ all_but_last turns)
  = (response, Some err) →
  let recent := last_n 5 (all_but_last turns) in
  recent = take 5 (drop (length turns - 6) turns)
  ∧ length recent = 5%nat
  ∧ createCondensedHistory m
    = Ret [SystemMessage ("CONTEXT: " +:+ "Previous conversation includes:" +:+ LF +:+ LF
                            +:+ concat_strings (map format_turn recent))].
Proof.
  intros turns Hlen Hllm Hinv recent.
  destruct (last_n_all_but_last turns Hlen) as [Hrecent Hfive].
  split; [exact Hrecent |]. split; [exact Hfive |].
  unfold createCondensedHistory. fold (dialogue (history m)). fold turns.
  destruct (Z.gtb_spec (Z.of_nat (length turns)) 10) as [_ | ?]; [| lia].
  unfold generateContextSummary. rewrite Hllm, Hinv.
  assert (Hlen' : length (all_but_last turns) = (length turns - 1)%nat).
  { unfold all_but_last. rewrite length_take. lia. }
  destruct (Z.ltb_spec (Z.of_nat (length (all_but_last turns))) 5) as [? | _]; [lia |].
  fold recent. fold recent in Hfive. clearbody recent.
  rewrite (formatExistingContext_short recent) by lia.
  reflexivity.
Qed.

(** *** What a step leaves alone *)

Lemma same_session_refl m : same_session m m.
Proof. by repeat split. Qed.

Lemma same_session_trans m1 m2 m3 :
  same_session m1 m2 → same_session m2 m3 → same_session m1 m3.
Proof.
  intros (? & ? & ? & ? & ? & ? & ? & ?) (? & ? & ? & ? & ? & ? & ? & ?).
  repeat split; try congruence. eauto.
Qed.

Lemma repaint_same h t m : same_session m (repaint h t m).
Proof. by repeat split. Qed.

Lemma update_widgets_same m msg cmds :
  same_session m (fst (update_widgets m msg cmds)).
Proof.
  unfold update_widgets. destruct (ta_Update (ta m) msg) as [ta' c]. simpl.
  destruct (ready m); [destruct (vp_Update (hold m) msg) |]; by repeat split.
Qed.

Lemma updateViewportContent_same now m m' :
  updateViewportContent now m = Ret m' → same_session m m'.
Proof. intros (h & t & ->)%updateViewportContent_inv. apply repaint_same. Qed.

Lemma updateViewportContentInternal_same m m' :
  updateViewportContentInternal m = Ret m' → same_session m m'.
Proof. intros (h & ->)%updateViewportContentInternal_inv. by repeat split. Qed.



(** While the session is streaming, a message changes neither the
    statistics nor, unless it ends the stream, the history; and [Update]
    hands out no command that would start a stream. *)
Lemma Update_while_streaming now w msg w' cmd :
  streaming (model w) = true →
  Update now w msg = Ret (w', cmd) →
  stats (model w') = stats (model w)
  ∧ (sized (model w) → sized (model w'))
  ∧ (∀ u, startStreamingCmd u ∉ flatten cmd)
  ∧ (streaming (model w') = true → history (model w') = history (model w)).
Proof.
  intros Hst. unfold Update. rewrite Hst.
  assert (Hwidgets : ∀ m cmds u,
             (∀ c, c ∈ cmds → ∃ x, c = widgetCmd x) →
             startStreamingCmd u ∉ flatten (snd (update_widgets m msg cmds))).
  { intros m cmds u Hc. unfold update_widgets.
    destruct (ta_Update (ta m) msg) as [ta' c]. simpl.
    assert (Hflat : ∀ l, (∀ c, c ∈ l → ∃ x, c = widgetCmd x) →
                         startStreamingCmd u ∉ flatten (Batch l)).
    { clear. intros l Hl. simpl. induction l as [|c l IH]; [apply not_elem_of_nil |].
      destruct (Hl c) as [x ->]; [left |]. simpl.
      apply not_elem_of_cons. split; [done |].
      apply IH. intros c' Hc'. apply Hl. by right. }
    destruct (ready _); [destruct (vp_Update _ _) |]; simpl; apply Hflat;
      intros c0 [Hc0 | Hc0]%elem_of_app; try (by apply Hc);
      try (apply list_elem_of_singleton in Hc0; eauto);
      apply elem_of_app in Hc0 as [Hc0 | Hc0]; try (by apply Hc);
      apply list_elem_of_singleton in Hc0; eauto. }
  assert (Hnil : ∀ c : Cmd, c ∈ @nil Cmd → ∃ x, c = widgetCmd x).
  { intros c Hc. inversion Hc. }
  destruct msg as [Width Height | | | | [| | | runes] | tag].
  - (* WindowSizeMsg *)
    destruct (NewTermRenderer _) as [g [err|]]; [discriminate |].
    destruct (updateViewportContent now _) as [m1 | |] eqn:Hr; simpl; [| discriminate ..].
    apply updateViewportContent_same in Hr.
    pose proof (update_widgets_same m1 (WindowSizeMsg Width Height) []) as Hw.
    pose proof (Hwidgets m1 [] ) as Hc.
    destruct (update_widgets m1 _ []) as [m2 c]. simpl in *.
    intros [= <- <-]. simpl.
    destruct Hr as (Hh & ? & _ & _ & Hs & _ & _ & Hz).
    destruct Hw as (Hh' & ? & _ & _ & Hs' & _ & _ & Hz').
    split; [by rewrite Hs', Hs |]. split; [intros _; apply Hz', Hz; by eexists |].
    split; [intros u; by apply Hc |]. intros _. by rewrite Hh', Hh.
  - (* tickMsg *)
    destruct (tokenChan (model w)) as [[|token rest] [|]] eqn:Hch; simpl.
    + destruct (updateViewportContentInternal _) as [m1 | |] eqn:Hr; simpl;
        [| discriminate ..].
      apply updateViewportContentInternal_same in Hr.
      destruct Hr as (Hh & Hs & _ & _ & Ht & _ & _ & Hz).
      intros [= <- <-]. simpl. split; [by rewrite Ht |]. split; [done |].
      split; [intros u Hu; inversion Hu as [| ? ? ? Hu']; inversion Hu' |].
      rewrite Hs. discriminate.
    + intros [= <- <-]. repeat split; try done.
      intros u Hu; inversion Hu as [| ? ? ? Hu']; inversion Hu'.
    + destruct (updateViewportContent now _) as [m1 | |] eqn:Hr; simpl;
        [| discriminate ..].
      apply updateViewportContent_same in Hr.
      destruct Hr as (Hh & Hs & _ & _ & Ht & _ & _ & Hz).
      intros [= <- <-]. simpl.
      split; [rewrite Ht; fields; by destruct (_ >? 10000); [| destruct (_ >? 5000)] |].
      split; [intros Hsz; apply Hz; fields;
              by destruct (_ >? 10000); [| destruct (_ >? 5000)] |].
      split; [intros u Hu; inversion Hu as [| ? ? ? Hu']; inversion Hu' |].
      intros _. rewrite Hh. fields.
      by destruct (_ >? 10000); [| destruct (_ >? 5000)].
    + destruct (updateViewportContent now _) as [m1 | |] eqn:Hr; simpl;
        [| discriminate ..].
      apply updateViewportContent_same in Hr.
      destruct Hr as (Hh & Hs & _ & _ & Ht & _ & _ & Hz).
      intros [= <- <-]. simpl.
      split; [rewrite Ht; fields; by destruct (_ >? 10000); [| destruct (_ >? 5000)] |].
      split; [intros Hsz; apply Hz; fields;
              by destruct (_ >? 10000); [| destruct (_ >? 5000)] |].
      split; [intros u Hu; inversion Hu as [| ? ? ? Hu']; inversion Hu' |].
      intros _. rewrite Hh. fields.
      by destruct (_ >? 10000); [| destruct (_ >? 5000)].
  - (* exitMsg *)
    intros [= <- <-]. repeat split; try done.
    intros u Hu; inversion Hu as [| ? ? ? Hu']; inversion Hu'.
  - (* streamStartMsg *)
    intros [= <- <-]. repeat split; try done.
    intros u Hu; inversion Hu as [| ? ? ? Hu']; inversion Hu'.
  - (* KeyEsc *)
    set (m0 := if ta_Focused _ then _ else _).
    assert (Hm0 : same_session (model w) m0).
    { subst m0. destruct (ta_Focused _); by repeat split. }
    pose proof (update_widgets_same m0 (KeyMsg KeyEsc) []) as Hw.
    pose proof (Hwidgets m0 []) as Hc.
    destruct (update_widgets m0 _ []) as [m2 c]. simpl in *.
    intros [= <- <-]. simpl.
    destruct (same_session_trans _ _ _ Hm0 Hw) as (Hh & ? & _ & _ & Hs & _ & _ & Hz).
    repeat split; try done. intros u. by apply Hc.
  - (* KeyEnter *)
    intros [= <- <-]. repeat split; try done. intros u Hu. inversion Hu.
  - (* KeyCtrlC *)
    intros [= <- <-]. repeat split; try done.
    intros u Hu; inversion Hu as [| ? ? ? Hu']; inversion Hu'.
  - (* another key *)
    set (r := if negb _ then _ else _).
    assert (Hm0 : same_session (model w) (fst r)
                 ∧ ∀ c, c ∈ snd r → ∃ x, c = widgetCmd x).
    { subst r. destruct (negb _); [destruct (ta_Focus _) as [ta' c'] |]; simpl.
      - split; [by repeat split |].
        intros c ->%list_elem_of_singleton. eauto.
      - split; [apply same_session_refl | done]. }
    destruct r as [m0 cmds]. simpl in Hm0. destruct Hm0 as [Hm0 Hcmds].
    pose proof (update_widgets_same m0 (KeyMsg (KeyOther runes)) cmds) as Hw.
    pose proof (Hwidgets m0 cmds) as Hc.
    destruct (update_widgets m0 _ cmds) as [m2 c]. simpl in *.
    intros [= <- <-]. simpl.
    destruct (same_session_trans _ _ _ Hm0 Hw) as (Hh & ? & _ & _ & Hs & _ & _ & Hz).
    repeat split; try done. intros u. by apply Hc.
  - (* a message without a case *)
    pose proof (update_widgets_same (model w) (otherMsg tag) []) as Hw.
    pose proof (Hwidgets (model w) []) as Hc.
    destruct (update_widgets (model w) _ []) as [m2 c]. simpl in *.
    intros [= <- <-]. simpl.
    destruct Hw as (Hh & ? & _ & _ & Hs & _ & _ & Hz).
    repeat split; try done. intros u. by apply Hc.
Qed.



Lemma step_msg_inv now msg s s' :
  step (l_msg now msg) s = Some (Ret s') →
  ∃ w cmd, Update now (world s) msg = Ret (w, cmd)
           ∧ s' = MkSys w (pending s ++ flatten cmd) (goroutines s).
Proof.
  unfold step.
  destruct (Update now (world s) msg) as [[w cmd] | |]; simpl; [| discriminate ..].
  intros [= <-]. eauto.
Qed.





(** *** Counting the frames *)

Lemma wrap_int_range z : in_int_range (wrap_int z).
Proof.
  unfold in_int_range, wrap_int, min_int, max_int.
  pose proof (Z.mod_pos_bound (z - -9223372036854775808) (2 ^ 64)). lia.
Qed.

Lemma wrap_int_id z : in_int_range z → wrap_int z = z.
Proof.
  unfold in_int_range, wrap_int, min_int, max_int. intros Hz.
  rewrite Z.mod_small; lia.
Qed.

Lemma wrap_int_add_l a b : wrap_int (wrap_int a + b) = wrap_int (a + b).
Proof.
  unfold wrap_int. f_equal.
  replace ((a - min_int) mod 2 ^ 64 + min_int + b - min_int)
    with ((a - min_int) mod 2 ^ 64 + b) by lia.
  rewrite Zplus_mod_idemp_l. f_equal. lia.
Qed.

Lemma total_left_insert gs i g g' :
  gs !! i = Some g →
  total_left (<[ i := g' ]> gs) = total_left gs - updates_left g + updates_left g'.
Proof.
  revert i. induction gs as [|g0 gs IH]; intros [|i]; simpl; try discriminate.
  - intros [= ->]. lia.
  - intros Hi. rewrite (IH i Hi). lia.
Qed.

Lemma streams_of_labels ls s s' : stream_labels ls s = Some s' → streams s ls s'.
Proof.
  revert s. induction ls as [|l ls IH]; intros s; simpl.
  - destruct (streaming _); [| discriminate]. by intros [= ->].
  - destruct (streaming _); [| discriminate].
    destruct (step l s) as [[s1 | |]|] eqn:Hs; try discriminate.
    intros Hrun. split; [done |]. exists s1. split; [done |]. by apply IH.
Qed.


Lemma streams_computed ls s :
  match stream_labels ls s with
  | Some _ => true
  | None => false
  end = true →
  streams s ls match stream_labels ls s with
               | Some s' => s'
               | None => s
               end.
Proof. intros Hrun. apply streams_of_labels. by destruct (stream_labels ls s). Qed.

(** A goroutine step adds one to the count exactly when it makes one of its
    updates. *)
Lemma goroutine_step_counts w g w' g' :
  goroutine_step w g = Some (w', g') →
  (updates_left g' = updates_left g
   ∧ TotalTokens (stats (model w')) = TotalTokens (stats (model w)))
  ∨ (updates_left g' = updates_left g - 1
     ∧ TotalTokens (stats (model w')) = int_add (TotalTokens (stats (model w))) 1).
Proof.
  unfold goroutine_step.
  destruct g as [[|[|message msg] rest] | [|token tokens] rest |].
  - intros [= <- <-]. by left.
  - intros [= <- <-]. left. split; [| done]. unfold updates_left, counted_frames.
    rewrite filter_cons_False; [done | by intros ?].
  - intros [= <- <-]. left. split; [| done]. unfold updates_left, counted_frames.
    rewrite filter_cons_True by done. simpl length. lia.
  - intros [= <- <-]. right. simpl. split; [lia | done].
  - destruct (_ <? _)%nat; [| discriminate]. intros [= <- <-]. by left.
  - discriminate.
Qed.

(** One step of a run in which no stream is being started. *)
Lemma step_counts l s s' :
  streaming (model (world s)) = true →
  (∀ u, startStreamingCmd u ∉ pending s) →
  step l s = Some (Ret s') →
  (∀ u, startStreamingCmd u ∉ pending s')
  ∧ wrap_int (TotalTokens (stats (model (world s'))) + total_left (goroutines s'))
    = wrap_int (TotalTokens (stats (model (world s))) + total_left (goroutines s))
  ∧ (in_int_range (TotalTokens (stats (model (world s)))) →
     in_int_range (TotalTokens (stats (model (world s'))))).
Proof.
  intros Hst Hns. destruct l as [now msg | now i | i].
  - intros (w & cmd & HU & ->)%step_msg_inv. simpl.
    destruct (Update_while_streaming _ _ _ _ _ Hst HU) as (Hs & _ & Hc & _).
    rewrite Hs. split; [| done].
    intros u [Hu | Hu]%elem_of_app; [by eapply Hns | by eapply Hc].
  - unfold step. destruct (pending s !! i) as [c|] eqn:Hi; [| discriminate].
    assert (Hdel : ∀ u, startStreamingCmd u ∉ delete i (pending s)).
    { intros u Hu. apply (Hns u). eapply list_elem_of_delete_inv, Hu. }
    destruct c as [| | | userMessage | | | c | cmds]; try (intros [= <-]; done).
    exfalso. apply (Hns userMessage). eapply list_elem_of_lookup_2, Hi.
  - unfold step. destruct (goroutines s !! i) as [g|] eqn:Hi; [| discriminate].
    destruct (goroutine_step (world s) g) as [[w g']|] eqn:Hg; [| discriminate].
    intros [= <-]. simpl. split; [done |].
    rewrite (total_left_insert _ _ _ _ Hi).
    destruct (goroutine_step_counts _ _ _ _ Hg) as [[-> ->] | [-> ->]].
    + split; [apply (f_equal wrap_int); lia | tauto].
    + split.
      * unfold int_add. rewrite wrap_int_add_l. apply (f_equal wrap_int). lia.
      * intros _. apply wrap_int_range.
Qed.

Lemma streams_counts s ls s' :
  streams s ls s' →
  (∀ u, startStreamingCmd u ∉ pending s) →
  wrap_int (TotalTokens (stats (model (world s'))) + total_left (goroutines s'))
  = wrap_int (TotalTokens (stats (model (world s))) + total_left (goroutines s))
  ∧ (in_int_range (TotalTokens (stats (model (world s)))) →
     in_int_range (TotalTokens (stats (model (world s'))))).
Proof.
  revert s. induction ls as [|l ls IH]; intros s; simpl.
  - by intros [_ ->].
  - intros (Hst & s1 & Hstep & Hrun) Hns.
    destruct (step_counts l s s1 Hst Hns Hstep) as (Hns1 & Hinv & Hrange).
    destruct (IH s1 Hrun Hns1) as (Hinv' & Hrange').
    split; [congruence | eauto].
Qed.

(** C2. The count of a stream.  The receive goroutine adds one to
    [stats.TotalTokens] for every frame it receives that holds a message,
    whether the message carries text, tool calls or neither, and nothing
    else changes the count while the session streams.  So when a stream of
    frames [fr] has run its course the count is its value at the start of
    the stream plus the number of those frames, in 64-bit arithmetic; the
    lengths of the contents play no part. *)
Theorem tokens_counted_per_frame s ls s' fr :
  goroutines s = [g_recv fr] →
  (∀ u, startStreamingCmd u ∉ pending s) →
  in_int_range (TotalTokens (stats (model (world s)))) →
  streams s ls s' →
  goroutines s' = [g_done] →
  let before := TotalTokens (stats (model (world s))) in
  let K := Z.of_nat (length (counted_frames fr)) in
  TotalTokens (stats (model (world s'))) = wrap_int (before + K)
  ∧ (before + K <= max_int → TotalTokens (stats (model (world s'))) = before + K).
Proof.
  intros Hg Hns Hrange Hrun Hdone before K.
  destruct (streams_counts _ _ _ Hrun Hns) as (Hinv & Hrange').
  rewrite Hg, Hdone in Hinv. simpl in Hinv. rewrite !Z.add_0_r in Hinv.
  rewrite (wrap_int_id _ (Hrange' Hrange)) in Hinv.
  fold before K in Hinv. split; [exact Hinv |].
  intros Hmax. rewrite Hinv. apply wrap_int_id.
  unfold in_int_range in *. fold before in Hrange. lia.
Qed.

End session_facts.

Lemma throttle_after_fragment_witness :
  let w := sample.streaming_world [] "Hi" [" there"] false in
  ∃ w', ui.Update (sample.clock 0) w ui.tickMsg = Ret (w', ui.tick)
    ∧ ui.currentResponse (ui.model w') = "Hi there"
    ∧ ui.renderThrottle (ui.model w') = (100 * ui.Millisecond)%Z.
Proof.
  intros w.
  destruct (throttle_after_fragment (sample.clock 0) w " there" [] false)
    as (w' & HU & Hcur & Hlen & Hthr & H100 & _).
  - reflexivity.
  - reflexivity.
  - by eexists.
  - vm_compute. discriminate.
  - exists w'. split; [exact HU |]. split; [exact Hcur |].
    apply H100. rewrite Hlen. vm_compute. discriminate.
Defined.

(** At a length of exactly 5,000 the code keeps the interval at 100ms,
    where the step function of the specification gives 150ms. *)
Lemma throttle_counterexample :
  match ui.Update (sample.clock 0)
          (sample.streaming_world [] (spec.repeat_byte "a" 4999) ["a"] false)
          ui.tickMsg with
  | Ret (w', _) =>
      len (ui.currentResponse (ui.model w')) = 5000%Z
      ∧ ui.renderThrottle (ui.model w') = (100 * ui.Millisecond)%Z
      ∧ spec.spec_interval 5000 = (150 * ui.Millisecond)%Z
      ∧ ui.renderThrottle (ui.model w')
        ≠ spec.spec_interval (len (ui.currentResponse (ui.model w')))
  | _ => False
  end.
Proof. vm_compute. repeat split. discriminate. Qed.

Lemma context_of_short_conversation_witness :
  let m := ui.model (sample.idle_world sample.hello_history sample.offline_backend "Hello") in
  (1 <= length (spec.dialogue (ui.history m)) <= 10)%nat
  ∧ ∃ body,
      ui.createCondensedHistory m = Ret [SystemMessage ("CONTEXT: " +:+ body)]
      ∧ spec.in_order ["Hello"; "Hi there!"] body.
Proof.
  intros m.
  assert (Hlen : (1 <= length (spec.dialogue (ui.history m)) <= 10)%nat)
    by (vm_compute; lia).
  split; [exact Hlen |].
  destruct (context_of_short_conversation m Hlen) as (body & Hc & _ & _ & Hplain).
  exists body. split; [exact Hc |].
  apply Hplain. intros t Ht.
  change (spec.dialogue (ui.history m)) with sample.hello_history in Ht.
  apply list_elem_of_In in Ht. simpl in Ht.
  destruct Ht as [<- | [<- | []]]; reflexivity.
Defined.

(** An assistant turn that records a tool call: its content is not a
    substring of the context, which holds it with the marker decorated. *)
Lemma context_of_short_conversation_counterexample :
  let m := ui.model (sample.idle_world [AssistantMessage sample.tool_reply []]
                       sample.offline_backend "next") in
  (1 <= length (spec.dialogue (ui.history m)) <= 10)%nat
  ∧ match ui.createCondensedHistory m with
    | Ret [msg] =>
        Role msg = "system"
        ∧ HasPrefix (Content msg) "CONTEXT: " = true
        ∧ ¬ spec.in_order (map Content (spec.dialogue (ui.history m))) (Content msg)
    | _ => False
    end.
Proof.
  intros m. split; [vm_compute; lia |].
  destruct (ui.createCondensedHistory m) as [[|msg [|? ?]] | |] eqn:E;
    try (vm_compute in E; discriminate).
  assert (Hc : Contains (Content msg) sample.tool_reply = false).
  { vm_compute in E. injection E as <-. vm_compute. reflexivity. }
  split; [vm_compute in E; by injection E as <- |].
  split; [vm_compute in E; by injection E as <- |].
  change (spec.dialogue (ui.history m)) with [AssistantMessage sample.tool_reply []].
  simpl. intros (pre & post & Heq & _).
  rewrite Heq, Contains_intro in Hc. discriminate.
Qed.

Lemma context_when_summary_fails_witness :
  let m := ui.model (sample.idle_world sample.eleven_turns sample.offline_backend "next") in
  (10 < length (spec.dialogue (ui.history m)))%nat
  ∧ ui.createCondensedHistory m
    = Ret [SystemMessage
             ("CONTEXT: " +:+ "Previous conversation includes:" +:+ LF +:+ LF
                +:+ concat_strings
                      (map ui.format_turn
                         (map UserMessage ["t6"; "t7"; "t8"; "t9"; "t10"])))].
Proof.
  intros m.
  assert (Hlen : (10 < length (spec.dialogue (ui.history m)))%nat) by (vm_compute; lia).
  split; [exact Hlen |].
  apply (context_when_summary_fails m sample.offline_backend []
           (ErrBackend "connection refused") Hlen); reflexivity.
Defined.

(** Eleven turns and a failing backend: the context holds turns 6 to 10,
    not the last five turns 7 to 11. *)
Lemma context_when_summary_fails_counterexample :
  let m := ui.model (sample.idle_world sample.eleven_turns sample.offline_backend "next") in
  let last_five := last_n 5 (spec.dialogue (ui.history m)) in
  last_five = map UserMessage ["t7"; "t8"; "t9"; "t10"; "t11"]
  ∧ ui.createCondensedHistory m
    ≠ Ret [SystemMessage ("CONTEXT: " +:+ ui.formatExistingContext last_five)]
  ∧ match ui.createCondensedHistory m with
    | Ret [msg] => Contains (Content msg) "t11" = false ∧ Contains (Content msg) "t6" = true
    | _ => False
    end.
Proof. vm_compute. repeat split. discriminate. Qed.

Lemma rejected_submission_changes_nothing_witness :
  let s := ui.MkSys (sample.streaming_world [UserMessage "Hello"] "Hi" [" there"] false)
             [] [ui.g_send ["!"] []] in
  ui.step (ui.l_msg (sample.clock 0) (ui.KeyMsg ui.KeyEnter)) s = Some (Ret s).
Proof.
  intros s. apply (rejected_submission_changes_nothing (sample.clock 0) s).
  left. reflexivity.
Defined.


Lemma tokens_counted_per_frame_witness :
  spec.streams sample.hello_streaming sample.goroutine_first sample.hello_counted
  ∧ ui.goroutines sample.hello_counted = [ui.g_done]
  ∧ storage.TotalTokens (ui.stats (ui.model (ui.world sample.hello_counted))) = 3%Z.
Proof.
  assert (Hrun : spec.streams sample.hello_streaming sample.goroutine_first
                   sample.hello_counted)
    by exact_no_check
         (@streams_computed sample.plain_toolkit sample.plain_json
            sample.goroutine_first sample.hello_streaming (eq_refl true)).
  assert (Hdone : ui.goroutines sample.hello_counted = [ui.g_done])
    by exact_no_check (eq_refl [ui.g_done]).
  split; [exact Hrun |]. split; [exact Hdone |].
  destruct (@tokens_counted_per_frame sample.plain_toolkit sample.plain_json
              sample.hello_streaming sample.goroutine_first
              sample.hello_counted sample.hello_frames) as [_ Hcount].
  - reflexivity.
  - intros u Hu. inversion Hu.
  - split; discriminate.
  - exact Hrun.
  - exact Hdone.
  - apply Hcount. discriminate.
Defined.

(** A frame with a tool call and no text is counted: the stream carries no
    text-bearing fragment and the count goes from 0 to 1. *)
Lemma tokens_counted_counterexample :
  match spec.stream_labels [ui.l_go 0; ui.l_go 0; ui.l_go 0; ui.l_go 0]
          sample.tool_start with
  | Some s' =>
      ui.goroutines s' = [ui.g_done]
      ∧ length (spec.text_frames sample.tool_frames) = 0%nat
      ∧ storage.TotalTokens (ui.stats (ui.model (ui.world sample.tool_start))) = 0%Z
      ∧ storage.TotalTokens (ui.stats (ui.model (ui.world s'))) = 1%Z
      ∧ storage.TotalTokens (ui.stats (ui.model (ui.world s')))
        ≠ (storage.TotalTokens (ui.stats (ui.model (ui.world sample.tool_start)))
           + Z.of_nat (length (spec.text_frames sample.tool_frames)))%Z
  | None => False
  end.
Proof. vm_compute. repeat split. discriminate. Qed.
